(** * crossenv: a shallow embedding of [crossenv/__init__.py]

    The builder class [CrossEnvBuilder] and its helpers are translated
    function by function.  Python [str] values are Rocq strings whose
    characters are read as code points below 256; the file system is a
    finite map from path strings to nodes; a statement that can raise is a
    computation in a state-and-exception monad over the file system.
    What the standard library and the operating system provide ([glob],
    [abspath], [venv], [subprocess], ...) is collected in the record
    [Runtime] and left uninterpreted.  Calls to the logger change nothing
    that is modelled and are left out. *)

From Stdlib Require Import ZArith Ascii String List Bool Lia.
From stdpp Require Import base option list gmap strings fin_maps.

Local Open Scope Z_scope.

(** ** Characters and text *)

Module Py.

Definition chr (n : nat) : ascii := ascii_of_nat n.
Definition NL : ascii := chr 10.
Definition TAB : ascii := chr 9.
Definition SP : ascii := chr 32.
Definition SLASH : ascii := chr 47.
Definition DOT : ascii := chr 46.
Definition DQ : ascii := chr 34.

Definition str1 (c : ascii) : string := String c EmptyString.
Definition nl : string := str1 NL.
Definition dq : string := str1 DQ.

Definition ascii_eqb (a b : ascii) : bool := Ascii.eqb a b.

(** [str.isspace] on one code point below 256: the C0 separators, the
    space, NEL (133) and the no-break space (160). *)
Definition isspace (c : ascii) : bool :=
  let n := nat_of_ascii c in
  ((9 <=? n)%nat && (n <=? 13)%nat) || ((28 <=? n)%nat && (n <=? 32)%nat)
  || (n =? 133)%nat || (n =? 160)%nat.

Fixpoint contains (c : ascii) (s : string) : bool :=
  match s with
  | EmptyString => false
  | String a r => ascii_eqb a c || contains c r
  end.

Fixpoint count (c : ascii) (s : string) : nat :=
  match s with
  | EmptyString => O
  | String a r => ((if ascii_eqb a c then 1 else 0) + count c r)%nat
  end.

(** [s.lstrip()], [s.rstrip()], [s.strip()] with no argument. *)
Fixpoint lstrip (s : string) : string :=
  match s with
  | EmptyString => EmptyString
  | String a r => if isspace a then lstrip r else s
  end.

Fixpoint rstrip (s : string) : string :=
  match s with
  | EmptyString => EmptyString
  | String a r =>
      match rstrip r with
      | EmptyString => if isspace a then EmptyString else str1 a
      | r' => String a r'
      end
  end.

Definition strip (s : string) : string := rstrip (lstrip s).

(** [s.rstrip(c)] for a single character. *)
Fixpoint rstrip_char (c : ascii) (s : string) : string :=
  match s with
  | EmptyString => EmptyString
  | String a r =>
      match rstrip_char c r with
      | EmptyString => if ascii_eqb a c then EmptyString else str1 a
      | r' => String a r'
      end
  end.

Definition startswith (s p : string) : bool := String.prefix p s.

(** [s[n:]] *)
Fixpoint drop (n : nat) (s : string) : string :=
  match n, s with
  | O, _ => s
  | S _, EmptyString => EmptyString
  | S n', String _ r => drop n' r
  end.

(** [s.split(sep)] for a one-character separator: every occurrence cuts. *)
Fixpoint split (sep : ascii) (s : string) : list string :=
  match s with
  | EmptyString => [EmptyString]
  | String a r =>
      if ascii_eqb a sep then EmptyString :: split sep r
      else match split sep r with
           | [] => [str1 a]
           | w :: ws => String a w :: ws
           end
  end.

(** [s.split(sep, 1)]: cut at the first occurrence only. *)
Fixpoint split1 (sep : ascii) (s : string) : list string :=
  match s with
  | EmptyString => [EmptyString]
  | String a r =>
      if ascii_eqb a sep then [EmptyString; r]
      else match split1 sep r with
           | [] => [str1 a]
           | w :: ws => String a w :: ws
           end
  end.

(** [s.split()] with no argument: the maximal runs of non-space
    characters.  [cur] is the word being read, if any. *)
Fixpoint words_go (cur : option string) (s : string) : list string :=
  match s with
  | EmptyString => match cur with Some w => [w] | None => [] end
  | String a r =>
      if isspace a
      then match cur with
           | Some w => w :: words_go None r
           | None => words_go None r
           end
      else words_go
             (Some (match cur with
                    | Some w => w +:+ str1 a
                    | None => str1 a
                    end)) r
  end.

Definition words (s : string) : list string := words_go None s.

(** The lines of a text as iteration over an open text file yields them:
    each keeps its newline, the last one may lack it.  The text is what a
    file opened in text mode delivers, its line ends already translated. *)
Fixpoint readlines_go (cur : string) (s : string) : list string :=
  match s with
  | EmptyString => match cur with EmptyString => [] | _ => [cur] end
  | String a r =>
      if ascii_eqb a NL then (cur +:+ nl) :: readlines_go EmptyString r
      else readlines_go (cur +:+ str1 a) r
  end.

Definition readlines (s : string) : list string := readlines_go EmptyString s.

Fixpoint concat (l : list string) : string :=
  match l with
  | [] => EmptyString
  | x :: r => x +:+ concat r
  end.

(** [l[-1]] on a list known to be non-empty, with a default otherwise. *)
Definition last (l : list string) : string := List.last l EmptyString.

End Py.

(** ** Exceptions *)

Inductive exn_class :=
  | Exception
  | OSError            (* IOError is the same class *)
  | FileNotFoundError
  | IsADirectoryError
  | NotADirectoryError
  | FileExistsError
  | PermissionError
  | ValueError
  | RuntimeError
  | NameError
  | KeyError
  | AttributeError
  | AssertionError
  | TypeError
  | CalledProcessError.

Global Instance exn_class_eq_dec : EqDecision exn_class.
Proof. solve_decision. Defined.

Record exn := Exn { exn_cls : exn_class; exn_msg : string }.

Global Instance exn_eq_dec : EqDecision exn.
Proof. solve_decision. Defined.

(** [issubclass c d] for the classes above. *)
Definition issubclass (c d : exn_class) : bool :=
  match d with
  | Exception => true
  | OSError =>
      match c with
      | OSError | FileNotFoundError | IsADirectoryError | NotADirectoryError
      | FileExistsError | PermissionError => true
      | _ => false
      end
  | _ => bool_decide (c = d)
  end.

Inductive result (A : Type) :=
  | Ok (a : A)
  | Raise (e : exn).
Arguments Ok {A} a.
Arguments Raise {A} e.

(** *** Names

    The names the module binds at top level (its imports, its logger, its
    class and its functions), and the built-in exception names.  Evaluating
    any other bare name raises [NameError]. *)
Definition module_globals : list string :=
  ["venv"; "os"; "sysconfig"; "glob"; "sys"; "shutil"; "dedent";
   "subprocess"; "logging"; "importlib"; "types"; "ConfigParser";
   "F"; "utils"; "logger"; "CrossEnvBuilder"; "parse_env_vars"; "main"].

Definition builtin_exceptions : list (string * exn_class) :=
  [("Exception", Exception); ("OSError", OSError); ("IOError", OSError);
   ("EnvironmentError", OSError);
   ("FileNotFoundError", FileNotFoundError);
   ("IsADirectoryError", IsADirectoryError);
   ("NotADirectoryError", NotADirectoryError);
   ("FileExistsError", FileExistsError);
   ("PermissionError", PermissionError);
   ("ValueError", ValueError); ("RuntimeError", RuntimeError);
   ("NameError", NameError); ("KeyError", KeyError);
   ("AttributeError", AttributeError); ("AssertionError", AssertionError);
   ("TypeError", TypeError)].

Definition name_error (name : string) : exn :=
  Exn NameError ("name '" +:+ name +:+ "' is not defined").

Fixpoint assoc {A} (k : string) (l : list (string * A)) : option A :=
  match l with
  | [] => None
  | (k', v) :: r => if bool_decide (k' = k) then Some v else assoc k r
  end.

Definition builtin_names : list string :=
  ["ArithmeticError"; "AssertionError"; "AttributeError"; "BaseException";
   "BlockingIOError"; "BrokenPipeError"; "BufferError"; "BytesWarning";
   "ChildProcessError"; "ConnectionAbortedError"; "ConnectionError";
   "ConnectionRefusedError"; "ConnectionResetError"; "DeprecationWarning";
   "EOFError"; "Ellipsis"; "EnvironmentError"; "Exception"; "False";
   "FileExistsError"; "FileNotFoundError"; "FloatingPointError";
   "FutureWarning"; "GeneratorExit"; "IOError"; "ImportError";
   "ImportWarning"; "IndentationError"; "IndexError"; "InterruptedError";
   "IsADirectoryError"; "KeyError"; "KeyboardInterrupt"; "LookupError";
   "MemoryError"; "ModuleNotFoundError"; "NameError"; "None";
   "NotADirectoryError"; "NotImplemented"; "NotImplementedError"; "OSError";
   "OverflowError"; "PendingDeprecationWarning"; "PermissionError";
   "ProcessLookupError"; "RecursionError"; "ReferenceError";
   "ResourceWarning"; "RuntimeError"; "RuntimeWarning";
   "StopAsyncIteration"; "StopIteration"; "SyntaxError"; "SyntaxWarning";
   "SystemError"; "SystemExit"; "TabError"; "TimeoutError"; "True";
   "TypeError"; "UnboundLocalError"; "UnicodeDecodeError";
   "UnicodeEncodeError"; "UnicodeError"; "UnicodeTranslateError";
   "UnicodeWarning"; "UserWarning"; "ValueError"; "Warning";
   "ZeroDivisionError"; "abs"; "all"; "any"; "ascii"; "bin"; "bool";
   "breakpoint"; "bytearray"; "bytes"; "callable"; "chr"; "classmethod";
   "compile"; "complex"; "copyright"; "credits"; "delattr"; "dict"; "dir";
   "divmod"; "enumerate"; "eval"; "exec"; "exit"; "filter"; "float";
   "format"; "frozenset"; "getattr"; "globals"; "hasattr"; "hash"; "help";
   "hex"; "id"; "input"; "int"; "isinstance"; "issubclass"; "iter"; "len";
   "license"; "list"; "locals"; "map"; "max"; "memoryview"; "min"; "next";
   "object"; "oct"; "open"; "ord"; "pow"; "print"; "property"; "quit";
   "range"; "repr"; "reversed"; "round"; "set"; "setattr"; "slice";
   "sorted"; "staticmethod"; "str"; "sum"; "super"; "tuple"; "type";
   "vars"; "zip"].

Definition name_bound (locals : list string) (name : string) : bool :=
  bool_decide (name ∈ locals ++ module_globals ++ builtin_names).

(** The class an [except NAME:] clause names.  The name is evaluated when
    an exception reaches the clause; a name that is bound to something
    other than one of the exception classes above cannot be caught on. *)
Definition eval_except_class (locals : list string) (name : string)
  : result exn_class :=
  if name_bound locals name then
    match assoc name builtin_exceptions with
    | Some c => Ok c
    | None => Raise (Exn TypeError
        "catching classes that do not inherit from BaseException is not allowed")
    end
  else Raise (name_error name).

(** Evaluating a bare name inside a [%]-format argument: the text of its
    value.  None of the file's locals or globals that are strings is ever
    evaluated this way, so a bound name is rendered by its own spelling. *)
Definition eval_name_str (locals : list string) (name : string)
  : result string :=
  if name_bound locals name then Ok name else Raise (name_error name).

(** ** [posixpath] *)

Module Path.
Import Py.

Fixpoint all_slashes (s : string) : bool :=
  match s with
  | EmptyString => true
  | String a r => ascii_eqb a SLASH && all_slashes r
  end.

Fixpoint ends_with_slash (s : string) : bool :=
  match s with
  | EmptyString => false
  | String a EmptyString => ascii_eqb a SLASH
  | String _ r => ends_with_slash r
  end.

(** [(p[:i], p[i:])] for [i = p.rfind('/') + 1]. *)
Fixpoint rsplit_slash (p : string) : string * string :=
  match p with
  | EmptyString => (EmptyString, EmptyString)
  | String a r =>
      let '(h, t) := rsplit_slash r in
      if contains SLASH r then (String a h, t)
      else if ascii_eqb a SLASH then (str1 a, r)
      else (EmptyString, String a r)
  end.

Definition basename (p : string) : string := snd (rsplit_slash p).

Definition dirname (p : string) : string :=
  let head := fst (rsplit_slash p) in
  match head with
  | EmptyString => head
  | _ => if all_slashes head then head else rstrip_char SLASH head
  end.

(** [os.path.join(a, b)]; with more arguments the call folds to the left. *)
Definition join (a b : string) : string :=
  if startswith b (str1 SLASH) then b
  else match a with
       | EmptyString => b
       | _ => if ends_with_slash a then a +:+ b else a +:+ str1 SLASH +:+ b
       end.

Definition join3 (a b c : string) : string := join (join a b) c.

(** [p.rfind(c)], [-1] when [c] does not occur. *)
Fixpoint rfind_from (i : Z) (c : ascii) (s : string) : Z :=
  match s with
  | EmptyString => -1
  | String a r =>
      let k := rfind_from (i + 1) c r in
      if 0 <=? k then k else if ascii_eqb a c then i else -1
  end.

Definition rfind (c : ascii) (s : string) : Z := rfind_from 0 c s.

Definition slice (i j : Z) (s : string) : string :=
  String.substring (Z.to_nat i) (Z.to_nat (j - i)) s.

(** The loop of [genericpath._splitext] that skips the leading dots of the
    file name; [n] bounds the number of steps by the distance to the dot. *)
Fixpoint splitext_scan (n : nat) (p : string) (i dot : Z) : string * string :=
  match n with
  | O => (p, EmptyString)
  | S n' =>
      if i <? dot then
        if bool_decide (slice i (i + 1) p = str1 DOT)
        then splitext_scan n' p (i + 1) dot
        else (slice 0 dot p, drop (Z.to_nat dot) p)
      else (p, EmptyString)
  end.

Definition splitext (p : string) : string * string :=
  let sepIndex := rfind SLASH p in
  let dotIndex := rfind DOT p in
  if sepIndex <? dotIndex
  then splitext_scan (S (String.length p)) p (sepIndex + 1) dotIndex
  else (p, EmptyString).

End Path.

(** ** The file system and the monad of statements *)

Inductive node :=
  | File (content : string)
  | Dir
  | Symlink (target : string).

Global Instance node_eq_dec : EqDecision node.
Proof. solve_decision. Defined.

(** A computation reads and updates the file system and either returns or
    raises; the file system survives an exception. *)
Definition M (A : Type) : Type :=
  gmap string node → result A * gmap string node.

Definition ret {A} (a : A) : M A := λ fs, (Ok a, fs).
Definition raise {A} (e : exn) : M A := λ fs, (Raise e, fs).
Definition bind {A B} (m : M A) (k : A → M B) : M B :=
  λ fs, match m fs with
        | (Ok a, fs') => k a fs'
        | (Raise e, fs') => (Raise e, fs')
        end.
Definition lift {A} (r : result A) : M A := λ fs, (r, fs).
Definition gets {A} (f : gmap string node → A) : M A := λ fs, (Ok (f fs), fs).
Definition modify (f : gmap string node → gmap string node) : M unit :=
  λ fs, (Ok tt, f fs).

Notation "'let*' x := m 'in' k" := (bind m (λ x, k))
  (at level 10, x pattern, m at level 100, k at level 200).
Notation "m >> k" := (bind m (λ _, k))
  (at level 100, k at level 200, right associativity).

(** [for x in l: body x] *)
Fixpoint for_ {A} (l : list A) (body : A → M unit) : M unit :=
  match l with
  | [] => ret tt
  | x :: r => body x >> for_ r body
  end.

(** Unfolds the monad's operations in a goal about a run. *)
Ltac unmonad := unfold bind, gets, ret, raise, lift, modify in *.

Module FS.
Import Py Path.

(** Following symbolic links on the last component, at most 40 deep. *)
Fixpoint stat_go (fuel : nat) (fs : gmap string node) (p : string)
  : option node :=
  match fs !! p with
  | Some (Symlink t) =>
      match fuel with
      | O => None
      | S n => stat_go n fs (join (dirname p) t)
      end
  | o => o
  end.

(** The empty path names nothing. *)
Definition stat (fs : gmap string node) (p : string) : option node :=
  match p with
  | EmptyString => None
  | _ => stat_go 40 fs p
  end.

Definition exists_ (fs : gmap string node) (p : string) : bool :=
  bool_decide (is_Some (stat fs p)).

Definition isfile (fs : gmap string node) (p : string) : bool :=
  match stat fs p with Some (File _) => true | _ => false end.

Definition isdir (fs : gmap string node) (p : string) : bool :=
  match stat fs p with Some Dir => true | _ => false end.

Definition enoent (p : string) : exn :=
  Exn FileNotFoundError ("[Errno 2] No such file or directory: '" +:+ p +:+ "'").
Definition eisdir (p : string) : exn :=
  Exn IsADirectoryError ("[Errno 21] Is a directory: '" +:+ p +:+ "'").
Definition enotdir (p : string) : exn :=
  Exn NotADirectoryError ("[Errno 20] Not a directory: '" +:+ p +:+ "'").

(** [open(p).read()] *)
Definition read (p : string) : M string :=
  λ fs, match stat fs p with
        | Some (File c) => (Ok c, fs)
        | Some _ => (Raise (eisdir p), fs)
        | None => (Raise (enoent p), fs)
        end.

(** [open(p, 'w')]: the file is created or truncated. *)
Definition open_w (p : string) : M unit :=
  λ fs, match fs !! p with
        | Some Dir => (Raise (eisdir p), fs)
        | _ => if isdir fs (dirname p)
               then (Ok tt, <[p := File EmptyString]> fs)
               else (Raise (enoent p), fs)
        end.

(** [fp.write(text)] on the file opened at [p]. *)
Definition write (p : string) (text : string) : M unit :=
  modify (λ fs, match fs !! p with
                | Some (File c) => <[p := File (c +:+ text)]> fs
                | _ => fs
                end).

(** The directory prefix under which the entries of [d] live. *)
Definition dir_prefix (d : string) : string :=
  if ends_with_slash d then d else d +:+ str1 SLASH.

Fixpoint strip_prefix (pre s : string) : option string :=
  match pre, s with
  | EmptyString, _ => Some s
  | String a p', String b s' =>
      if ascii_eqb a b then strip_prefix p' s' else None
  | String _ _, EmptyString => None
  end.

(** [q] is [p] or lies below it. *)
Definition under (p q : string) : bool :=
  bool_decide (q = p) || bool_decide (is_Some (strip_prefix (dir_prefix p) q)).

(** The name of [q] as a direct entry of directory [d], if it is one. *)
Definition entry_name (d q : string) : option string :=
  match strip_prefix (dir_prefix d) q with
  | Some n =>
      match n with
      | EmptyString => None
      | _ => if contains SLASH n then None else Some n
      end
  | None => None
  end.

(** An entry name: not empty and without separator. *)
Definition is_name (n : string) : Prop :=
  n ≠ EmptyString ∧ contains SLASH n = false.

(** What may follow an entry name in a path: nothing, or a separator and
    more. *)
Definition is_rest (x : string) : Prop :=
  x = EmptyString ∨ ∃ r, x = str1 SLASH +:+ r.

(** [os.listdir(d)], in the arbitrary order of the map's keys. *)
Definition listdir (d : string) : M (list string) :=
  λ fs, match stat fs d with
        | Some Dir => (Ok (omap (λ kv, entry_name d kv.1) (map_to_list fs)), fs)
        | Some _ => (Raise (enotdir d), fs)
        | None => (Raise (enoent d), fs)
        end.

End FS.

(** ** [textwrap.dedent] *)

Module Textwrap.
Import Py.

Definition is_blank (c : ascii) : bool := ascii_eqb c SP || ascii_eqb c TAB.

(** The line consists of spaces and tabs only. *)
Fixpoint blank_only (s : string) : bool :=
  match s with
  | EmptyString => true
  | String a r => is_blank a && blank_only r
  end.

(** The run of spaces and tabs a line starts with. *)
Fixpoint leading_blanks (s : string) : string :=
  match s with
  | EmptyString => EmptyString
  | String a r => if is_blank a then String a (leading_blanks r) else EmptyString
  end.

Fixpoint common_prefix (a b : string) : string :=
  match a, b with
  | String x a', String y b' =>
      if ascii_eqb x y then String x (common_prefix a' b') else EmptyString
  | _, _ => EmptyString
  end.

Fixpoint join_lines (l : list string) : string :=
  match l with
  | [] => EmptyString
  | [x] => x
  | x :: r => x +:+ nl +:+ join_lines r
  end.

(** The margin: the longest run of blanks that every line with a
    non-blank character starts with. *)
Definition margin (lines : list string) : string :=
  match omap (λ l, match l with
                   | EmptyString => None
                   | _ => Some (leading_blanks l)
                   end) lines with
  | [] => EmptyString
  | i :: r => foldl common_prefix i r
  end.

Definition remove_margin (m line : string) : string :=
  match FS.strip_prefix m line with
  | Some r => r
  | None => line
  end.

(** Lines of blanks become empty, then the common margin is removed from
    every line that has it. *)
Definition dedent (text : string) : string :=
  let lines :=
    map (λ l, if blank_only l then EmptyString else l) (split NL text) in
  join_lines (map (remove_margin (margin lines)) lines).

(** A line of an indented block: it has no line break and starts with a
    character that is not a blank. *)
Definition body_line (b : string) : Prop :=
  contains NL b = false
  ∧ match b with
    | String c _ => is_blank c = false
    | EmptyString => False
    end.

End Textwrap.

(** ** What the interpreter, the standard library and the system provide *)

Inductive proc_result :=
  | Exited (code : Z) (stdout : string)   (* the program ran *)
  | SpawnFailed (e : exn).                (* it could not be started *)

(** The keyword arguments of [venv.EnvBuilder]. *)
Record venv_flags := VenvFlags {
  vf_system_site_packages : bool;
  vf_clear : bool;
  vf_symlinks : bool;
  vf_upgrade : bool;
  vf_with_pip : bool }.

(** The attributes of the context namespace that [venv] fills in and this
    file reads, followed by the attributes this file adds. *)
Record ctx := Ctx {
  env_dir : string;
  bin_path : string;
  python_exe : string;
  lib_path : string;
  crossenv_cfg : string;
  build_env_dir : string;
  build_bin_path : string;
  build_env_exe : string;
  build_sys_path : list string;
  cross_env_dir : string;
  cross_bin_path : string;
  cross_env_exe : string;
  cross_cfg_path : string;
  cross_activate : string }.

Record Runtime := {
  sys_platform : string;                    (* sys.platform *)
  config_VERSION : string;                  (* sysconfig.get_config_var('VERSION') *)
  config_py_version_short : string;         (* ...('py_version_short') *)
  os_file : string;                         (* os.__file__ *)
  abspath : string → string;                (* os.path.abspath *)
  is_python_source_dir : gmap string node → string → bool;
  glob : gmap string node → string → list string;             (* glob.glob *)
  (* importing the file and reading its [build_time_vars] *)
  exec_module : gmap string node → string → string → result (gmap string string);
  (* running a command that only reports *)
  spawn : gmap string node → list string → proc_result;
  venv_ensure_directories : venv_flags → string → M ctx;
  venv_create : venv_flags → string → M unit;
  configparser_write : string → list (string * string) → result string;
  str_title : string → string;              (* str.title *)
  str_splitlines : string → list string;    (* str.splitlines *)
  py_repr : string → string;                (* repr of a str *)
  str_isidentifier : string → bool;         (* str.isidentifier *)
  os_chmod : string → Z → M unit;
  os_access_x : gmap string node → string → bool;
  shutil_copy : string → string → M unit;
  check_call : list string → M unit;        (* subprocess.check_call *)
  utils_symlink : string → string → M unit;
  utils_install_script : string → string → M unit }.

(** [subprocess.check_output(cmdline, universal_newlines=True)] *)
Definition check_output (rt : Runtime) (cmdline : list string) : M string :=
  λ fs, match spawn rt fs cmdline with
        | Exited code out =>
            if code =? 0 then (Ok out, fs)
            else (Raise (Exn CalledProcessError
                    "Command returned non-zero exit status"), fs)
        | SpawnFailed e => (Raise e, fs)
        end.

(** [try: body  except NAME: handler], with [NAME] evaluated only when an
    exception arrives. *)
Definition try_except {A} (body : M A) (locals : list string) (name : string)
    (handler : exn → M A) : M A :=
  λ fs, match body fs with
        | (Ok a, fs') => (Ok a, fs')
        | (Raise e, fs') =>
            match eval_except_class locals name with
            | Raise e' => (Raise e', fs')
            | Ok c => if issubclass (exn_cls e) c then handler e fs'
                      else (Raise e, fs')
            end
        end.

(** ** The helper module [utils]

    [crossenv/utils.py] is not part of the sources at hand; its functions
    are modelled from their use and from the specification. *)

Module Utils.
Import Py Path.

(** Modelled from the spec: [utils.remove_path], which deletes the named
    entry, a file or a whole directory tree ("selectively deletes"). *)
Definition remove_path (p : string) : M unit :=
  modify (filter (λ kv, FS.under p kv.1 = false)).

(** Modelled from the spec: [utils.mkdir_if_needed], which creates the
    directory unless the path already exists ("recreated on every call"). *)
Definition mkdir_if_needed (p : string) : M unit :=
  modify (λ fs, match fs !! p with
                | None => <[p := Dir]> fs
                | Some _ => fs
                end).

(** Modelled from the spec: [utils.overwrite_file], the context manager
    behind "write-to-temporary-then-atomically-replace": the text the body
    writes replaces the file when the body returns, and nothing is
    published when it raises.  [body] returns the text written. *)
Definition overwrite_file (p : string) (body : M string) : M unit :=
  let* text := body in
  modify (λ fs, <[p := File text]> fs).

End Utils.

(** ** The builder *)

(** The attributes [find_host_python] sets on [self]. *)
Record host_info := HostInfo {
  host_project_base : string;
  host_makefile : string;
  host_home : string;
  host_sysconfigdata_file : string;
  host_sysconfigdata_name : string;
  host_sysconfigdata : gmap string string;
  host_cc : string;
  host_version : string;
  host_platform : string }.

Module CrossEnvBuilder.
Import Py Path.

Definition version_mismatch (host_version build_version : string) : exn :=
  Exn ValueError
    ("Version mismatch: host=" +:+ host_version +:+ ", build=" +:+ build_version).

(** [d[key]] on a dict of strings. *)
Definition getitem (d : gmap string string) (key : string) : M string :=
  match d !! key with
  | Some v => ret v
  | None => raise (Exn KeyError ("'" +:+ key +:+ "'"))
  end.

(** The loop over the lines of the makefile (lines 195-199): the first
    stripped line that starts with the key decides, otherwise the default
    stays. *)
Fixpoint scan_makefile (platform : string) (lines : list string) : string :=
  match lines with
  | [] => platform
  | line :: rest =>
      let line := strip line in
      if startswith line "_PYTHON_HOST_PLATFORM="
      then last (split1 (chr 61) line)
      else scan_makefile platform rest
  end.

(** Lines 120-167: the two discovery branches.  Returns the makefile path,
    the home directory and the list of configuration-data candidates. *)
Definition discover (rt : Runtime) (host_project_base build_version : string)
  : M (string * string * list string) :=
  let* src := gets (λ fs, is_python_source_dir rt fs host_project_base) in
  if (src : bool) then
    let host_makefile := join host_project_base "Makefile" in
    let pybuilddir := join host_project_base "pybuilddir.txt" in
    let* build_dir :=
      try_except
        (let* text := FS.read pybuilddir in ret (strip text))
        ["self"; "host"; "build_version"; "pybuilddir"] "IOError"
        (λ _, let* s := lift (eval_name_str
                               ["self"; "host"; "build_version"; "pybuilddir"]
                               "s") in
              raise (Exn OSError
                ("Cannot read " +:+ s +:+ ": Build the host Python first "))) in
    let host_home := host_project_base in
    let* sysconfigdata :=
      gets (λ fs, glob rt fs
                    (join3 host_project_base build_dir "_sysconfigdata*.py")) in
    ret (host_makefile, host_home, sysconfigdata)
  else
    let host_home := dirname host_project_base in
    let python_ver := "python" +:+ config_py_version_short rt in
    let libdir := join3 host_home "lib" python_ver in
    let* sysconfigdata :=
      gets (λ fs, glob rt fs (join libdir "_sysconfigdata*.py")) in
    let* sysconfigdata :=
      match sysconfigdata with
      | [] =>
          let* sysconfigdata :=
            gets (λ fs, glob rt fs (join3 libdir "*" "_sysconfigdata*.py")) in
          match sysconfigdata with
          | [] =>
              let anylib := join3 host_home "lib" "python*" in
              let glob1 := join anylib "_sysconfigdata*.py" in
              let glob2 := join3 anylib "*" "_sysconfigdata*.py" in
              let* found := gets (λ fs, glob rt fs glob1 ++ glob rt fs glob2) in
              match found with
              | found0 :: _ =>
                  let found := basename (dirname found0) in
                  let host_version := drop 6 found in
                  raise (version_mismatch host_version build_version)
              | [] => ret sysconfigdata
              end
          | _ => ret sysconfigdata
          end
      | _ => ret sysconfigdata
      end in
    let* makefile := gets (λ fs, glob rt fs (join3 libdir "*" "Makefile")) in
    let host_makefile :=
      match makefile with
      | [] => EmptyString
      | m0 :: _ => m0
      end in
    ret (host_makefile, host_home, sysconfigdata).

(** Lines 169-172: exactly one candidate may be left. *)
Definition single_candidate (sysconfigdata : list string) : M string :=
  match sysconfigdata with
  | [] => raise (Exn FileNotFoundError "No _sysconfigdata*.py found in host lib")
  | [f] => ret f
  | _ => raise (Exn ValueError "Malformed Python installation.")
  end.

(** Lines 174-204: load the configuration data, read the makefile, compare
    the versions. *)
Definition load_host (rt : Runtime)
    (host_project_base build_version host_makefile host_home : string)
    (host_sysconfigdata_file : string) : M host_info :=
  let name := basename host_sysconfigdata_file in
  let host_sysconfigdata_name := fst (splitext name) in
  let* syscfg :=
    (λ fs, (exec_module rt fs host_sysconfigdata_name host_sysconfigdata_file,
            fs)) in
  let* host_cc := getitem syscfg "CC" in
  let* host_version := getitem syscfg "VERSION" in
  let* mk := gets (λ fs, FS.exists_ fs host_makefile) in
  if negb mk then raise (Exn FileNotFoundError "Cannot find Makefile") else
  let* text := FS.read host_makefile in
  let host_platform := scan_makefile (sys_platform rt) (readlines text) in
  if negb (bool_decide (host_version = build_version))
  then raise (version_mismatch host_version build_version)
  else ret (HostInfo host_project_base host_makefile host_home
              host_sysconfigdata_file host_sysconfigdata_name syscfg
              host_cc host_version host_platform).

Definition find_host_python (rt : Runtime) (host : string) : M host_info :=
  let build_version := config_VERSION rt in
  let host := abspath rt host in
  let* ex := gets (λ fs, FS.exists_ fs host) in
  if negb ex then raise (Exn FileNotFoundError (host +:+ " does not exist")) else
  let* isf := gets (λ fs, FS.isfile fs host) in
  if negb isf then
    raise (Exn ValueError
             ("Expected a path to a Python executable. Got " +:+ host)) else
  let host_project_base := dirname host in
  let* (host_makefile, host_home, sysconfigdata) :=
    discover rt host_project_base build_version in
  let* host_sysconfigdata_file := single_candidate sysconfigdata in
  load_host rt host_project_base build_version host_makefile host_home
    host_sysconfigdata_file.

(** Lines 212-217, the local helper of [find_compiler_info]. *)
Definition run_compiler (rt : Runtime) (host_cc arg : string)
  : M (option string) :=
  let cmdline := [host_cc; arg] in
  try_except
    (let* out := check_output rt cmdline in ret (Some out))
    ["arg"; "cmdline"; "self"] "CalledProcessError"
    (λ _, ret None).

(** Returns the value left in [self.host_sysroot]. *)
Definition find_compiler_info (rt : Runtime) (host_cc : string)
  : M (option string) :=
  let* version := run_compiler rt host_cc "--version" in
  match version with
  | None =>
      raise (Exn RuntimeError
               "Cannot run cross-compiler! Extension modules won't build!")
  | Some _ =>
      let* out := run_compiler rt host_cc "-print-sysroot" in
      match out with
      | Some out => ret (Some (strip out))
      | None =>
          raise (Exn AttributeError
                   "'NoneType' object has no attribute 'strip'")
      end
  end.

(** The keyword arguments of the constructor.  [clear] is [None] for a
    false value and [Some s] for the string [s]. *)
Record init_args := InitArgs {
  arg_host_python : string;
  arg_extra_env_vars : list (string * string * string);
  arg_build_system_site_packages : bool;
  arg_clear : option string;
  arg_cross_prefix : option string;
  arg_with_cross_pip : bool;
  arg_with_build_pip : bool }.

Record builder := Builder {
  host : host_info;
  host_sysroot : option string;
  build_system_site_packages : bool;
  extra_env_vars : list (string * string * string);
  clear_build : bool;
  with_cross_pip : bool;
  with_build_pip : bool;
  cross_prefix : option string;
  clear_cross : bool;
  base : venv_flags }.       (* what [super().__init__] stores *)

(** [x in (s1, ..., sn)] for a value that is a string or a false value. *)
Definition py_in (x : option string) (l : list string) : bool :=
  match x with
  | Some s => bool_decide (s ∈ l)
  | None => false
  end.

(** Truth value of an optional string: [None] and the empty string are
    false. *)
Definition truthy (x : option string) : bool :=
  match x with
  | Some (String _ _) => true
  | _ => false
  end.

Definition init (rt : Runtime) (a : init_args) : M builder :=
  let* hi := find_host_python rt (arg_host_python a) in
  let* sysroot := find_compiler_info rt (host_cc hi) in
  let clear := arg_clear a in
  let clear_build := py_in clear ["default"; "build"; "both"] in
  let '(cross_prefix, clear_cross) :=
    if truthy (arg_cross_prefix a)
    then (abspath rt <$> arg_cross_prefix a, py_in clear ["cross"; "both"])
    else (None, py_in clear ["default"; "cross"; "both"]) in
  ret (Builder hi sysroot (arg_build_system_site_packages a)
         (arg_extra_env_vars a) clear_build (arg_with_cross_pip a)
         (arg_with_build_pip a) cross_prefix clear_cross
         (VenvFlags false false true false false)).

(** *** Updating the context namespace *)

Definition with_lib_path (c : ctx) (v : string) : ctx :=
  Ctx (env_dir c) (bin_path c) (python_exe c) v (crossenv_cfg c)
    (build_env_dir c) (build_bin_path c) (build_env_exe c) (build_sys_path c)
    (cross_env_dir c) (cross_bin_path c) (cross_env_exe c) (cross_cfg_path c)
    (cross_activate c).

Definition with_crossenv_cfg (c : ctx) (v : string) : ctx :=
  Ctx (env_dir c) (bin_path c) (python_exe c) (lib_path c) v
    (build_env_dir c) (build_bin_path c) (build_env_exe c) (build_sys_path c)
    (cross_env_dir c) (cross_bin_path c) (cross_env_exe c) (cross_cfg_path c)
    (cross_activate c).

Definition with_build (c : ctx) (dir bin exe : string)
    (path : list string) : ctx :=
  Ctx (env_dir c) (bin_path c) (python_exe c) (lib_path c) (crossenv_cfg c)
    dir bin exe path
    (cross_env_dir c) (cross_bin_path c) (cross_env_exe c) (cross_cfg_path c)
    (cross_activate c).

Definition with_cross (c : ctx) (dir bin exe cfg activate : string)
  : ctx :=
  Ctx (env_dir c) (bin_path c) (python_exe c) (lib_path c) (crossenv_cfg c)
    (build_env_dir c) (build_bin_path c) (build_env_exe c) (build_sys_path c)
    dir bin exe cfg activate.

(** *** [ensure_directories] *)

(** Lines 260-265: when the root exists and a clear flag is set, every
    entry of the root is removed except [cross] and [build]. *)
Definition clear_shared (self : builder) (env_dir : string) : M unit :=
  let* ex := gets (λ fs, FS.exists_ fs env_dir) in
  if ex && (clear_cross self || clear_build self) then
    let* subdirs := FS.listdir env_dir in
    for_ subdirs (λ sub,
      if bool_decide (sub ∈ ["cross"; "build"]) then ret tt
      else Utils.remove_path (join env_dir sub))
  else ret tt.

(** The keys a clearing pass over the entries [subs] of the root removes:
    those at or below an entry other than [cross] and [build]. *)
Definition removed_by (env_dir : string) (subs : list string) (q : string)
  : bool :=
  existsb (λ sub, negb (bool_decide (sub ∈ ["cross"; "build"]))
                  && FS.under (join env_dir sub) q) subs.

Definition ensure_directories (rt : Runtime) (self : builder)
    (env_dir : string) : M ctx :=
  let* _ := clear_shared self env_dir in
  let* context := venv_ensure_directories rt (base self) env_dir in
  let context := with_lib_path context (join env_dir "lib") in
  let* _ := Utils.mkdir_if_needed (lib_path context) in
  ret context.

(** *** [create_configuration] *)

(** [sysname, machine = parts]: unpacking into exactly two names. *)
Definition unpack2 (parts : list string) : M (string * string) :=
  match parts with
  | [a; b] => ret (a, b)
  | [] | [_] =>
      raise (Exn ValueError "not enough values to unpack (expected 2, got 1)")
  | _ => raise (Exn ValueError "too many values to unpack (expected 2)")
  end.

Definition create_configuration (rt : Runtime) (self : builder)
    (context : ctx) : M ctx :=
  let* (sysname, machine) := unpack2 (split (chr 45) (host_platform (host self))) in
  let* text := lift (configparser_write rt "uname"
                 [("sysname", str_title rt sysname);
                  ("nodename", "build");
                  ("release", EmptyString);
                  ("version", EmptyString);
                  ("machine", machine)]) in
  let context := with_crossenv_cfg context (join (env_dir context) "crossenv.cfg") in
  let* _ := Utils.overwrite_file (crossenv_cfg context) (ret text) in
  ret context.

(** *** [make_build_python] *)

Definition make_build_python (rt : Runtime) (self : builder)
    (context : ctx) : M ctx :=
  let build_env_dir := join (env_dir context) "build" in
  let* _ := venv_create rt
              (VenvFlags (build_system_site_packages self) (clear_build self)
                 false false (with_build_pip self))
              build_env_dir in
  let build_bin_path := join build_env_dir "bin" in
  let build_env_exe := join build_bin_path (python_exe context) in
  let* out := check_output rt
                [build_env_exe; "-c";
                 "import sys; print('\n'.join(sys.path))"] in
  let build_sys_path :=
    filter (λ line, line ≠ EmptyString) (map strip (str_splitlines rt out)) in
  ret (with_build context build_env_dir build_bin_path build_env_exe
         build_sys_path).

(** *** [make_cross_python] *)

(** Lines 353-356: the loop that copies [pyvenv.cfg] line by line into the
    output handle; [out] is what has been written so far. *)
Fixpoint rewrite_home (host_project_base : string) (lines : list string)
    (out : string) : string :=
  match lines with
  | [] => out
  | line :: rest =>
      let line :=
        if bool_decide (take 2 (words line) = ["home"; "="])
        then "home = " +:+ host_project_base +:+ nl
        else line in
      rewrite_home host_project_base rest (out +:+ line)
  end.

Definition indent16 : string := "                ".

(** Modelled from the spec: [utils.F], which is not among the sources.
    The scripts are "string-templated" and each template names its
    expressions as [%(expr)s], so [F] is read as the interpolation of these
    expressions, evaluated in the caller's scope.  Each template below is
    written out with its expressions in place and with the blanks of the
    source text, the sixteen before the closing quotes included. *)
Definition cross_header (self : builder) (context : ctx)
    (sysconfig_name stdlib : string) : string :=
  indent16 +:+ "#!/bin/sh" +:+ nl +:+
  indent16 +:+ "_base=${0##*/}" +:+ nl +:+
  indent16 +:+ "export PYTHON_CROSSENV=1" +:+ nl +:+
  indent16 +:+ "export _PYTHON_PROJECT_BASE=" +:+ dq
           +:+ host_project_base (host self) +:+ dq +:+ nl +:+
  indent16 +:+ "export _PYTHON_HOST_PLATFORM=" +:+ dq
           +:+ host_platform (host self) +:+ dq +:+ nl +:+
  indent16 +:+ "export _PYTHON_SYSCONFIGDATA_NAME=" +:+ dq
           +:+ sysconfig_name +:+ dq +:+ nl +:+
  indent16 +:+ "export PYTHONHOME=" +:+ dq
           +:+ host_home (host self) +:+ dq +:+ nl +:+
  indent16 +:+ "export PYTHONPATH=" +:+ dq +:+ lib_path context +:+ ":"
           +:+ stdlib +:+ "${PYTHONPATH:+:$PYTHONPATH}" +:+ dq +:+ nl +:+
  indent16.

Definition cross_footer (context : ctx) : string :=
  indent16 +:+ "exec " +:+ build_env_exe context +:+ " -c '" +:+ nl +:+
  indent16 +:+ "import sys" +:+ nl +:+
  indent16 +:+ "import os" +:+ nl +:+
  indent16 +:+ "os.execv(" +:+ dq +:+ build_env_exe context +:+ dq
           +:+ ", sys.argv[1:])" +:+ nl +:+
  indent16 +:+ "' " +:+ dq +:+ cross_bin_path context +:+ "/$_base" +:+ dq
           +:+ " " +:+ dq +:+ "$@" +:+ dq +:+ nl +:+
  indent16.

(** [os.pathsep.join(l)] *)
Fixpoint pathsep_join (l : list string) : string :=
  match l with
  | [] => EmptyString
  | [x] => x
  | x :: r => x +:+ ":" +:+ pathsep_join r
  end.

(** Lines 390-403: the search paths below the sysroot. *)
Definition write_sysroot (rt : Runtime) (self : builder) (exe : string)
  : M unit :=
  if truthy (host_sysroot self) then
    let sysroot := default EmptyString (host_sysroot self) in
    let* libs := gets (λ fs, glob rt fs (join3 sysroot "usr" "lib*")) in
    let* _ :=
      match libs with
      | [] => ret tt
      | _ => FS.write exe ("export LIBRARY_PATH=" +:+ pathsep_join libs +:+ nl)
      end in
    let inc := join3 sysroot "usr" "include" in
    let* isd := gets (λ fs, FS.isdir fs inc) in
    if negb isd then ret tt
    else FS.write exe ("export CPATH=" +:+ inc +:+ nl)
  else ret tt.

(** Lines 405-412: one write per caller-supplied assignment. *)
Definition write_env_var (rt : Runtime) (exe : string)
    (entry : string * string * string) : M unit :=
  let '(name, assign, val) := entry in
  if bool_decide (assign = "=") then
    FS.write exe ("export " +:+ name +:+ "=" +:+ val +:+ nl)
  else if bool_decide (assign = "?=") then
    FS.write exe ("[ -z " +:+ dq +:+ "${" +:+ name +:+ "}" +:+ dq
                  +:+ " ] && export " +:+ name +:+ "=" +:+ val +:+ nl)
  else
    raise (Exn AssertionError ("Bad assignment value " +:+ py_repr rt assign)).

(** Lines 375-423: the body of [with open(context.cross_env_exe, 'w')]. *)
Definition write_cross_script (rt : Runtime) (self : builder)
    (context : ctx) (sysconfig_name stdlib : string) : M unit :=
  let exe := cross_env_exe context in
  let* _ := FS.open_w exe in
  let* _ := FS.write exe
              (Textwrap.dedent (cross_header self context sysconfig_name stdlib)) in
  let* _ := write_sysroot rt self exe in
  let* _ := for_ (extra_env_vars self) (write_env_var rt exe) in
  FS.write exe (Textwrap.dedent (cross_footer context)).

(** Lines 345-348: everything in the cross [bin] but the activation
    scripts is removed. *)
Definition remove_binaries (context : ctx) : M unit :=
  let* exes := FS.listdir (cross_bin_path context) in
  for_ exes (λ exe,
    if negb (startswith exe "activate")
    then Utils.remove_path (join (cross_bin_path context) exe)
    else ret tt).

(** Lines 350-356: [pyvenv.cfg] is read and republished with its [home]
    line replaced. *)
Definition alter_pyvenv_cfg (self : builder) (context : ctx) : M unit :=
  Utils.overwrite_file (cross_cfg_path context)
    (let* text := FS.read (cross_cfg_path context) in
     ret (rewrite_home (host_project_base (host self))
            (readlines text) EmptyString)).

Definition make_cross_python (rt : Runtime) (self : builder)
    (context : ctx) : M ctx :=
  let cross_env_dir :=
    if truthy (cross_prefix self)
    then default EmptyString (cross_prefix self)
    else join (env_dir context) "cross" in
  (* line 331 computes a local from [self.clear], the False that
     [super().__init__] stored, and never reads it *)
  let* _ := venv_create rt
              (VenvFlags false (clear_cross self) true false false)
              cross_env_dir in
  let cross_bin_path := join cross_env_dir "bin" in
  let cross_env_exe := join cross_bin_path (python_exe context) in
  let cross_cfg_path := join cross_env_dir "pyvenv.cfg" in
  let cross_activate := join cross_bin_path "activate" in
  let context := with_cross context cross_env_dir cross_bin_path cross_env_exe
                   cross_cfg_path cross_activate in
  let* _ := remove_binaries context in
  let* _ := alter_pyvenv_cfg self context in
  let sysconfig_name := basename (host_sysconfigdata_file (host self)) in
  let sysconfig_name := fst (splitext sysconfig_name) in
  let stdlib := abspath rt (dirname (os_file rt)) in
  let* _ := write_cross_script rt self context sysconfig_name stdlib in
  let* _ := os_chmod rt cross_env_exe 493 in
  let* _ := for_ ["python"; "python3"] (λ exe,
              let exe := join cross_bin_path exe in
              let* ex := gets (λ fs, FS.exists_ fs exe) in
              if negb ex then utils_symlink rt (python_exe context) exe
              else ret tt) in
  let* _ := utils_install_script rt "site.py" (lib_path context) in
  let* _ := shutil_copy rt (host_sysconfigdata_file (host self))
              (lib_path context) in
  let* _ := if with_cross_pip self
            then check_call rt [cross_env_exe; "-m"; "ensurepip";
                                "--default-pip"; "--upgrade"]
            else ret tt in
  ret context.

(** *** [post_setup] *)

Definition publish (rt : Runtime) (from_bin to_bin prefix : string) : M unit :=
  let* exes := FS.listdir from_bin in
  for_ exes (λ exe,
    let target := join from_bin exe in
    let* usable := gets (λ fs, FS.isfile fs target && os_access_x rt fs target) in
    if negb usable then ret tt
    else utils_symlink rt target (join to_bin (prefix +:+ exe))).

Definition activate_text (context : ctx) : string :=
  indent16 +:+ ". " +:+ cross_activate context +:+ nl +:+
  indent16 +:+ "export PATH=" +:+ bin_path context +:+ ":$PATH" +:+ nl +:+
  indent16.

Definition post_setup (rt : Runtime) (self : builder) (context : ctx)
  : M unit :=
  let* _ := publish rt (cross_bin_path context) (bin_path context) "cross-" in
  let* _ := publish rt (build_bin_path context) (bin_path context) "build-" in
  let activate := join (bin_path context) "activate" in
  let* _ := FS.open_w activate in
  FS.write activate (Textwrap.dedent (activate_text context)).

(** *** [create] *)

Definition create (rt : Runtime) (self : builder) (env_dir : string) : M unit :=
  let env_dir := abspath rt env_dir in
  let* context := ensure_directories rt self env_dir in
  let* context := create_configuration rt self context in
  let* context := make_build_python rt self context in
  let* context := make_cross_python rt self context in
  post_setup rt self context.

End CrossEnvBuilder.

(** ** The command line driver *)

Module Main.
Import Py CrossEnvBuilder.

(** [name[:-1]] *)
Fixpoint drop_last (s : string) : string :=
  match s with
  | EmptyString => EmptyString
  | String _ EmptyString => EmptyString
  | String a r => String a (drop_last r)
  end.

Fixpoint ends_with (c : ascii) (s : string) : bool :=
  match s with
  | EmptyString => false
  | String a EmptyString => ascii_eqb a c
  | String _ r => ends_with c r
  end.

Definition parse_env_var (rt : Runtime) (spec : string)
  : M (string * string * string) :=
  let spec := lstrip spec in
  let* (name, value) := unpack2 (split1 (chr 61) spec) in
  let '(assign, name) :=
    if ends_with (chr 63) name then ("?=", drop_last name) else ("=", name) in
  if negb (str_isidentifier rt name)
  then raise (Exn ValueError ("Invalid variable name " +:+ py_repr rt name))
  else ret (name, assign, value).

Fixpoint parse_env_vars (rt : Runtime) (env_vars : list string)
  : M (list (string * string * string)) :=
  match env_vars with
  | [] => ret []
  | spec :: rest =>
      let* e := parse_env_var rt spec in
      let* es := parse_env_vars rt rest in
      ret (e :: es)
  end.



End Main.

(** ** The vocabulary of the specification *)

Module Spec.
Import Py.

(** The error taxonomy, as the code spells each error. *)
Definition VersionMismatch (host_version build_version : string) : exn :=
  Exn ValueError
    ("Version mismatch: host=" +:+ host_version +:+ ", build=" +:+ build_version).
Definition ConfigDataNotFound : exn :=
  Exn FileNotFoundError "No _sysconfigdata*.py found in host lib".
Definition AmbiguousInstallation : exn :=
  Exn ValueError "Malformed Python installation.".
Definition CompilerUnavailable : exn :=
  Exn RuntimeError "Cannot run cross-compiler! Extension modules won't build!".
Definition MakefileNotFound : exn :=
  Exn FileNotFoundError "Cannot find Makefile".

Inductive ClearScope := ScopeNone | CrossOnly | BuildOnly | Both | Default.

(** The value of the [clear] argument that selects a scope. *)
Definition clear_value (s : ClearScope) : option string :=
  match s with
  | ScopeNone => None
  | CrossOnly => Some "cross"
  | BuildOnly => Some "build"
  | Both => Some "both"
  | Default => Some "default"
  end.

Inductive Operator := AlwaysSet | SetIfUnset.

Record EnvVarAssignment := Assign {
  var_name : string;
  var_op : Operator;
  var_value : string }.

Definition operator_token (o : Operator) : string :=
  match o with
  | AlwaysSet => "="
  | SetIfUnset => "?="
  end.

(** The triple the builder receives for an assignment. *)
Definition triple (e : EnvVarAssignment) : string * string * string :=
  (var_name e, operator_token (var_op e), var_value e).

(** An unconditional export, and an export guarded by a test that the
    variable is empty or absent. *)
Definition export_line (name value : string) : string :=
  "export " +:+ name +:+ "=" +:+ value +:+ nl.
Definition guarded_export_line (name value : string) : string :=
  "[ -z " +:+ dq +:+ "${" +:+ name +:+ "}" +:+ dq +:+ " ] && "
  +:+ export_line name value.

Definition assignment_line (e : EnvVarAssignment) : string :=
  match var_op e with
  | AlwaysSet => export_line (var_name e) (var_value e)
  | SetIfUnset => guarded_export_line (var_name e) (var_value e)
  end.





(** The first two blank-separated tokens of a descriptor line are [home]
    and [=]. *)
Definition is_home_line (line : string) : bool :=
  bool_decide (take 2 (words line) = ["home"; "="]).

Definition rewrite_line (project_base line : string) : string :=
  if is_home_line line then "home = " +:+ project_base +:+ nl else line.

(** The text has no line break. *)
Definition one_line (s : string) : Prop := contains NL s = false.

End Spec.

(** ** A small concrete world

    An installed host tree under [/opt/host] and a source checkout under
    [/src/cpython], with a runtime simple enough to evaluate. *)

Module Demo.
Import Py Path.

(** [*] matches any run of characters other than the separator. *)
Fixpoint wild_match (pat s : string) : bool :=
  match pat with
  | EmptyString => bool_decide (s = EmptyString)
  | String c pat' =>
      if ascii_eqb c (chr 42) then
        (fix star (s : string) : bool :=
           wild_match pat' s
           || match s with
              | EmptyString => false
              | String d s' => negb (ascii_eqb d SLASH) && star s'
              end) s
      else match s with
           | EmptyString => false
           | String d s' => ascii_eqb c d && wild_match pat' s'
           end
  end.

Definition matching (fs : gmap string node) (pattern : string) : list string :=
  filter (λ p, wild_match pattern p = true) (map_to_list fs).*1.

Definition mkdir (p : string) : M unit :=
  modify (λ fs, match fs !! p with None => <[p := Dir]> fs | Some _ => fs end).

Definition put (p : string) (text : string) : M unit :=
  modify (λ fs, <[p := File text]> fs).

Definition blank_ctx (dir : string) : ctx :=
  Ctx dir (join dir "bin") "python3" EmptyString EmptyString EmptyString
    EmptyString EmptyString [] EmptyString EmptyString EmptyString
    EmptyString EmptyString.

Definition make_directories (flags : venv_flags) (dir : string) : M ctx :=
  let* _ := if vf_clear flags then Utils.remove_path dir else ret tt in
  let* _ := mkdir dir in
  let* _ := mkdir (join dir "include") in
  let* _ := mkdir (join dir "lib") in
  let* _ := mkdir (join dir "bin") in
  ret (blank_ctx dir).

Definition make_venv (flags : venv_flags) (dir : string) : M unit :=
  let* _ := make_directories flags dir in
  let* _ := put (join dir "pyvenv.cfg")
              ("home = /usr/bin" +:+ nl +:+
               "include-system-site-packages = false" +:+ nl +:+
               "version = 3.9.7" +:+ nl) in
  let* _ := put (join3 dir "bin" "python3") "ELF" in
  put (join3 dir "bin" "activate") "# activate".

Fixpoint ini_items (items : list (string * string)) : string :=
  match items with
  | [] => EmptyString
  | (k, v) :: r => k +:+ " = " +:+ v +:+ nl +:+ ini_items r
  end.

Definition build_time_vars (version : string) : gmap string string :=
  {[ "CC" := "arm-linux-gnueabi-gcc"; "VERSION" := version ]}.

(** The runtime: [build_version] and [short] are the running
    interpreter's version and its directory suffix, [host_version] is the
    version the host's configuration data records, and [cc] answers the
    compiler's command lines. *)
Definition runtime (build_version short host_version : string)
    (cc : list string → proc_result) : Runtime :=
  {| sys_platform := "linux";
     config_VERSION := build_version;
     config_py_version_short := short;
     os_file := "/usr/lib/python3.9/os.py";
     abspath := λ p, p;
     is_python_source_dir := λ fs d, FS.isfile fs (join3 d "Modules" "Setup");
     glob := matching;
     exec_module := λ fs _ file,
       if FS.isfile fs file then Ok (build_time_vars host_version)
       else Raise (FS.enoent file);
     spawn := λ _ cmdline, cc cmdline;
     venv_ensure_directories := make_directories;
     venv_create := make_venv;
     configparser_write := λ section items,
       Ok ("[" +:+ section +:+ "]" +:+ nl +:+ ini_items items +:+ nl);
     str_title := λ s, s;
     str_splitlines := λ s, split NL s;
     py_repr := λ s, "'" +:+ s +:+ "'";
     str_isidentifier := λ s, negb (bool_decide (s = EmptyString));
     os_chmod := λ _ _, ret tt;
     os_access_x := λ _ _, true;
     shutil_copy := λ src dst,
       let* text := FS.read src in put (join dst (basename src)) text;
     check_call := λ _, ret tt;
     utils_symlink := λ target dest, modify (λ fs, <[dest := Symlink target]> fs);
     utils_install_script := λ name dir, put (join dir name) "# script" |}.

(** A GCC-like compiler, a Clang-like one that rejects the sysroot query,
    and a command that is not on disk. *)
Definition gcc (cmdline : list string) : proc_result :=
  match cmdline with
  | [_; "--version"] => Exited 0 ("arm-linux-gnueabi-gcc 9.3.0" +:+ nl)
  | [_; "-print-sysroot"] => Exited 0 ("/opt/sysroot" +:+ nl)
  | _ => Exited 0 EmptyString
  end.

Definition clang (cmdline : list string) : proc_result :=
  match cmdline with
  | [_; "--version"] => Exited 0 ("clang version 11.0.0" +:+ nl)
  | [_; "-print-sysroot"] => Exited 1 EmptyString
  | _ => Exited 0 EmptyString
  end.

Definition absent (cmdline : list string) : proc_result :=
  match cmdline with
  | [_; "--version"] | [_; "-print-sysroot"] =>
      SpawnFailed (FS.enoent "arm-linux-gnueabi-gcc")
  | _ => Exited 0 EmptyString
  end.

Definition dirs (l : list string) : list (string * node) :=
  map (λ p, (p, Dir)) l.

(** An installed host tree; [makefile] is the text of the makefile that
    the development files bring, when they are installed. *)
Definition installed_with (makefile : option string) : gmap string node :=
  list_to_map
    (dirs ["/"; "/opt"; "/opt/host"; "/opt/host/bin"; "/opt/host/lib";
           "/opt/host/lib/python3.9"; "/opt/host/lib/python3.9/config-3.9"]
     ++ [("/opt/host/bin/python3.9", File "ELF");
         ("/opt/host/lib/python3.9/_sysconfigdata__linux_arm.py",
          File "build_time_vars = {}")]
     ++ match makefile with
        | Some text => [("/opt/host/lib/python3.9/config-3.9/Makefile", File text)]
        | None => []
        end).

Definition cross_makefile : string :=
  "CC=arm-linux-gnueabi-gcc" +:+ nl +:+ "_PYTHON_HOST_PLATFORM=linux-arm" +:+ nl.

(** A makefile that names no host platform. *)
Definition native_makefile : string := "CC=gcc" +:+ nl.

Definition installed (with_makefile : bool) : gmap string node :=
  installed_with (if with_makefile then Some cross_makefile else None).

(** A host interpreter still in its build directory; [with_makefile]
    tells whether the makefile is still there. *)
Definition checkout (with_makefile : bool) : gmap string node :=
  list_to_map
    (dirs ["/"; "/src"; "/src/cpython"; "/src/cpython/Modules";
           "/src/cpython/build"; "/src/cpython/build/lib.linux-arm-3.9"]
     ++ [("/src/cpython/python", File "ELF");
         ("/src/cpython/Modules/Setup", File "# setup");
         ("/src/cpython/pybuilddir.txt", File "build/lib.linux-arm-3.9");
         ("/src/cpython/build/lib.linux-arm-3.9/_sysconfigdata__linux_arm.py",
          File "build_time_vars = {}")]
     ++ (if with_makefile
         then [("/src/cpython/Makefile",
                File ("_PYTHON_HOST_PLATFORM=linux-arm" +:+ nl))]
         else [])).

(** The same tree with a second configuration-data file next to the
    first. *)
Definition installed_twice : gmap string node :=
  <["/opt/host/lib/python3.9/_sysconfigdata__linux_x86.py" :=
      File "build_time_vars = {}"]> (installed true).

(** An environment root that was populated before. *)
Definition with_env (fs : gmap string node) : gmap string node :=
  list_to_map
    (dirs ["/env"; "/env/cross"; "/env/cross/bin"; "/env/build";
           "/env/build/bin"; "/env/lib"; "/env/bin"]
     ++ [("/env/cross/pyvenv.cfg", File ("home = /opt/host/bin" +:+ nl));
         ("/env/build/pyvenv.cfg", File ("home = /usr/bin" +:+ nl));
         ("/env/lib/site.py", File "# script");
         ("/env/notes.txt", File "keep me")])
  ∪ fs.

Definition args (host_python : string) (clear : option string)
    (env : list (string * string * string)) : CrossEnvBuilder.init_args :=
  CrossEnvBuilder.InitArgs host_python env false clear None false false.

(** The builder of a successful construction, or an empty one. *)
Definition built (r : result CrossEnvBuilder.builder * gmap string node)
  : CrossEnvBuilder.builder :=
  match r.1 with
  | Ok b => b
  | Raise _ =>
      CrossEnvBuilder.Builder
        (HostInfo EmptyString EmptyString EmptyString EmptyString EmptyString
           ∅ EmptyString EmptyString EmptyString)
        None false [] false false false None false
        (VenvFlags false false false false false)
  end.

Definition python39 : Runtime := runtime "3.9" "3.9" "3.9" gcc.

(** The two assignments [FOO=bar] and [BAZ?=qux]. *)
Definition assignments : list Spec.EnvVarAssignment :=
  [Spec.Assign "FOO" Spec.AlwaysSet "bar";
   Spec.Assign "BAZ" Spec.SetIfUnset "qux"].

(** A builder for the installed tree that clears the build area only. *)
Definition self : CrossEnvBuilder.builder :=
  built (CrossEnvBuilder.init python39
           (args "/opt/host/bin/python3.9" (Some "build")
              (map Spec.triple assignments))
           (installed true)).

(** A builder whose host makefile names no platform. *)
Definition native : CrossEnvBuilder.builder :=
  built (CrossEnvBuilder.init python39
           (args "/opt/host/bin/python3.9" None [])
           (installed_with (Some native_makefile))).

(** The context of a creation under [/env] when the cross script is
    written. *)
Definition context : ctx :=
  Ctx "/env" "/env/bin" "python3" "/env/lib" "/env/crossenv.cfg"
    "/env/build" "/env/build/bin" "/env/build/bin/python3" []
    "/env/cross" "/env/cross/bin" "/env/cross/bin/python3"
    "/env/cross/pyvenv.cfg" "/env/cross/bin/activate".

Definition world : gmap string node := with_env (installed true).

(** The compiler of the build machine itself: it reports no sysroot. *)
Definition native_gcc (cmdline : list string) : proc_result :=
  match cmdline with
  | [_; "--version"] => Exited 0 ("gcc 9.3.0" +:+ nl)
  | [_; "-print-sysroot"] => Exited 0 nl
  | _ => Exited 0 EmptyString
  end.

(** The build interpreter asked for its search path; any other command
    line is the compiler's. *)
Definition interpreter (cmdline : list string) : proc_result :=
  match cmdline with
  | [_; "-c"; _] =>
      Exited 0 ("/usr/lib/python3.9" +:+ nl +:+ "  " +:+ nl +:+
                " /env/build/lib/python3.9/site-packages " +:+ nl)
  | _ => gcc cmdline
  end.

(** The runtime [rt] reading configuration data that records the compiler
    and no version. *)
Definition without_version (rt : Runtime) : Runtime :=
  {| sys_platform := sys_platform rt;
     config_VERSION := config_VERSION rt;
     config_py_version_short := config_py_version_short rt;
     os_file := os_file rt;
     abspath := abspath rt;
     is_python_source_dir := is_python_source_dir rt;
     glob := glob rt;
     exec_module := λ _ _ _, Ok {[ "CC" := "arm-linux-gnueabi-gcc" ]};
     spawn := spawn rt;
     venv_ensure_directories := venv_ensure_directories rt;
     venv_create := venv_create rt;
     configparser_write := configparser_write rt;
     str_title := str_title rt;
     str_splitlines := str_splitlines rt;
     py_repr := py_repr rt;
     str_isidentifier := str_isidentifier rt;
     os_chmod := os_chmod rt;
     os_access_x := os_access_x rt;
     shutil_copy := shutil_copy rt;
     check_call := check_call rt;
     utils_symlink := utils_symlink rt;
     utils_install_script := utils_install_script rt |}.

(** A builder handed an assignment whose operator is neither of the two. *)
Definition careless : CrossEnvBuilder.builder :=
  built (CrossEnvBuilder.init python39
           (args "/opt/host/bin/python3.9" None
              [("FOO", "=", "bar"); ("BAR", ":=", "1"); ("BAZ", "?=", "qux")])
           (installed true)).

(** The cross environment as [venv] leaves it under [/env/cross]. *)
Definition fresh_cross : gmap string node :=
  (make_venv (VenvFlags false false true false false) "/env/cross" world).2.

End Demo.

(** * Properties *)

Import Py Path CrossEnvBuilder.


(** ** Text *)

Lemma app_cons (x : ascii) (a b : string) :
  String x a +:+ b = String x (a +:+ b).
Proof. reflexivity. Qed.

Lemma app_nil_r (s : string) : s +:+ EmptyString = s.
Proof. induction s as [|x s IH]; [done|]. by rewrite app_cons, IH. Qed.

Lemma app_assoc (a b c : string) : (a +:+ b) +:+ c = a +:+ (b +:+ c).
Proof. induction a as [|x a IH]; [done|]. by rewrite !app_cons, IH. Qed.

Lemma app_nonempty a c s : a +:+ String c s ≠ EmptyString.
Proof. destruct a; [discriminate|]. rewrite app_cons. discriminate. Qed.

Lemma length_app (a b : string) :
  String.length (a +:+ b) = (String.length a + String.length b)%nat.
Proof.
  induction a as [|x a IH]; [done|]. rewrite app_cons. simpl. by rewrite IH.
Qed.

Lemma contains_app c a b : contains c (a +:+ b) = contains c a || contains c b.
Proof.
  induction a as [|x a IH]; [done|]. rewrite ?app_cons. simpl.
  rewrite IH. by rewrite orb_assoc.
Qed.

Lemma split_length c s : length (split c s) = S (count c s).
Proof.
  induction s as [|a s IH]; [done|]. simpl.
  destruct (ascii_eqb a c); simpl; [by rewrite IH|].
  destruct (split c s); simpl in *; lia.
Qed.

Lemma split_whole c a : contains c a = false → split c a = [a].
Proof.
  induction a as [|x a IH]; [done|]. simpl.
  destruct (ascii_eqb x c); [done|]. simpl. intros H. by rewrite IH.
Qed.

Lemma split_app c a r :
  contains c a = false → split c (a +:+ str1 c +:+ r) = a :: split c r.
Proof.
  induction a as [|x a IH]; simpl.
  - intros _. change (str1 c +:+ r) with (String c r). simpl.
    unfold ascii_eqb. by rewrite Ascii.eqb_refl.
  - rewrite ?app_cons. simpl. destruct (ascii_eqb x c); [done|]. simpl.
    intros H. by rewrite IH.
Qed.

Lemma split_one c s :
  count c s = 1%nat → ∃ a b, split c s = [a; b] ∧ s = a +:+ str1 c +:+ b.
Proof.
  induction s as [|x s IH]; simpl; [lia|].
  destruct (ascii_eqb x c) eqn:E; intros H.
  - apply Ascii.eqb_eq in E. subst x.
    assert (contains c s = false) as Hs.
    { clear -H. induction s as [|y s IH]; [done|]. simpl in *.
      destruct (ascii_eqb y c); [lia|]. apply IH. lia. }
    rewrite split_whole by done. by exists EmptyString, s.
  - destruct (IH H) as (a & b & Es & ->). rewrite Es.
    by exists (String x a), b.
Qed.

Lemma split_join_lines ls :
  ls ≠ [] → Forall (λ l, contains NL l = false) ls →
  split NL (Textwrap.join_lines ls) = ls.
Proof.
  induction ls as [|l [|l' ls] IH]; [done| |]; intros _ H.
  - simpl. apply split_whole. by inversion H.
  - inversion H as [|? ? Hl Hr]; subst.
    change (Textwrap.join_lines (l :: l' :: ls))
      with (l +:+ nl +:+ Textwrap.join_lines (l' :: ls)).
    unfold nl. rewrite split_app by done. f_equal. by apply IH.
Qed.

Lemma readlines_go_concat cur s : concat (readlines_go cur s) = cur +:+ s.
Proof.
  revert cur. induction s as [|a s IH]; intros cur; simpl.
  - destruct cur; simpl; [done|]. by rewrite !app_nil_r.
  - destruct (ascii_eqb a NL) eqn:E.
    + apply Ascii.eqb_eq in E. subst a. simpl. rewrite IH.
      by rewrite app_assoc.
    + rewrite IH. by rewrite app_assoc.
Qed.

Lemma readlines_concat text : concat (readlines text) = text.
Proof. apply readlines_go_concat. Qed.

Lemma readlines_go_line cur b rest :
  contains NL b = false →
  readlines_go cur (b +:+ nl +:+ rest)
  = (cur +:+ b +:+ nl) :: readlines_go EmptyString rest.
Proof.
  revert cur. induction b as [|x b IH]; intros cur H.
  - change (EmptyString +:+ nl +:+ rest) with (String NL rest). reflexivity.
  - rewrite app_cons. simpl in *. apply orb_false_iff in H as [Hx Hb].
    rewrite Hx. rewrite IH by done. by rewrite app_assoc.
Qed.

(** Chunks that each end their own line are the lines of their
    concatenation. *)
Lemma readlines_chunks ls :
  Forall (λ l, ∃ b, l = b +:+ nl ∧ contains NL b = false) ls →
  readlines (concat ls) = ls.
Proof.
  unfold readlines. induction 1 as [|l ls (b & -> & Hb) _ IH]; [done|].
  simpl. rewrite app_assoc, readlines_go_line by done. by rewrite IH.
Qed.

(** ** Removing a common margin *)

Section Dedent.
Variable m : string.
Hypothesis m_blank : Textwrap.blank_only m = true.
Hypothesis m_nonempty : m ≠ EmptyString.

Lemma blank_one_line s : Textwrap.blank_only s = true → contains NL s = false.
Proof using Type.
  clear. induction s as [|x s IH]; [done|]. simpl.
  intros [Hx Hs]%andb_true_iff. rewrite (IH Hs), orb_false_r.
  unfold Textwrap.is_blank, ascii_eqb in *.
  destruct (Ascii.eqb x NL) eqn:E; [|done].
  apply Ascii.eqb_eq in E. subst x. done.
Qed.

Lemma m_one_line : contains NL m = false.
Proof using m_blank. by apply blank_one_line. Qed.

Lemma blank_only_body b : Textwrap.body_line b → Textwrap.blank_only (m +:+ b) = false.
Proof using Type.
  clear. intros [_ Hb]. induction m as [|x s IH].
  - destruct b; [done|]. simpl. change (EmptyString +:+ String a b) with (String a b).
    simpl. by rewrite Hb.
  - rewrite ?app_cons. simpl. rewrite IH. apply andb_false_r.
Qed.

Lemma leading_blanks_body b : Textwrap.body_line b → Textwrap.leading_blanks (m +:+ b) = m.
Proof using m_blank.
  clear m_nonempty. intros [_ Hb]. induction m as [|x s IH].
  - destruct b; [done|]. change (EmptyString +:+ String a b) with (String a b).
    simpl. by rewrite Hb.
  - rewrite ?app_cons. simpl in *. apply andb_true_iff in m_blank as [Hx Hs].
    rewrite Hx. f_equal. by apply IH.
Qed.

Lemma strip_prefix_app b : FS.strip_prefix m (m +:+ b) = Some b.
Proof using Type.
  clear. induction m as [|x s IH]; [by destruct b|].
  rewrite ?app_cons. simpl. unfold ascii_eqb. by rewrite Ascii.eqb_refl.
Qed.

Lemma common_prefix_self s : Textwrap.common_prefix s s = s.
Proof using Type.
  clear. induction s as [|x s IH]; [done|]. simpl.
  unfold ascii_eqb. rewrite Ascii.eqb_refl. by f_equal.
Qed.

Lemma app_body_nonempty b : Textwrap.body_line b → m +:+ b ≠ EmptyString.
Proof using Type.
  clear. intros [_ Hb]. destruct b; [done|]. destruct m; done.
Qed.

Lemma normalize_block bodies :
  Forall Textwrap.body_line bodies →
  map (λ l, if Textwrap.blank_only l then EmptyString else l)
      (map (String.append m) bodies ++ [m])
  = map (String.append m) bodies ++ [EmptyString].
Proof using m_blank.
  clear m_nonempty. intros H. rewrite map_app. simpl. rewrite m_blank. f_equal.
  induction H as [|b bs Hb _ IH]; [done|]. simpl.
  by rewrite blank_only_body, IH.
Qed.

Lemma indents_block bodies :
  Forall Textwrap.body_line bodies →
  omap (λ l, match l with
             | EmptyString => None
             | _ => Some (Textwrap.leading_blanks l)
             end) (map (String.append m) bodies ++ [EmptyString])
  = map (λ _, m) bodies.
Proof using m_blank.
  clear m_nonempty. intros H. induction H as [|b bs Hb _ IH]; [done|]. simpl.
  pose proof (app_body_nonempty b Hb) as Hne.
  pose proof (leading_blanks_body b Hb) as Hl.
  destruct (m +:+ b) eqn:E; [done|]. rewrite Hl. simpl. by f_equal.
Qed.

Lemma margin_block bodies :
  bodies ≠ [] → Forall Textwrap.body_line bodies →
  Textwrap.margin (map (String.append m) bodies ++ [EmptyString]) = m.
Proof using m_blank.
  clear m_nonempty. intros Hne H. unfold Textwrap.margin.
  rewrite indents_block by done.
  destruct bodies as [|b bs]; [done|]. simpl. clear.
  induction bs as [|b' bs IH]; [done|]. simpl. by rewrite common_prefix_self.
Qed.

Lemma join_block bodies :
  Textwrap.join_lines (bodies ++ [EmptyString])
  = concat (map (λ b, b +:+ nl) bodies).
Proof using Type.
  clear. induction bodies as [|b [|b' bs] IH]; [done| |].
  - simpl. by rewrite !app_assoc.
  - change (Textwrap.join_lines ((b :: b' :: bs) ++ [EmptyString]))
      with (b +:+ nl +:+ Textwrap.join_lines ((b' :: bs) ++ [EmptyString])).
    rewrite IH. simpl. by rewrite !app_assoc.
Qed.

Lemma dedent_block bodies :
  bodies ≠ [] → Forall Textwrap.body_line bodies →
  Textwrap.dedent (Textwrap.join_lines (map (String.append m) bodies ++ [m]))
  = concat (map (λ b, b +:+ nl) bodies).
Proof using m_blank m_nonempty.
  intros Hne H. unfold Textwrap.dedent.
  rewrite split_join_lines.
  - rewrite normalize_block, margin_block by done.
    rewrite map_app, map_map. simpl.
    rewrite <- join_block. f_equal. f_equal.
    + clear. induction bodies as [|b bs IH]; [done|]. simpl.
      unfold Textwrap.remove_margin at 1. rewrite strip_prefix_app. by f_equal.
    + unfold Textwrap.remove_margin. destruct m; done.
  - by destruct bodies.
  - apply Forall_app. split.
    + apply Forall_map. eapply Forall_impl; [exact H|]. intros b [Hb _]. simpl.
      rewrite contains_app, m_one_line, Hb. done.
    + constructor; [apply m_one_line|constructor].
Qed.
End Dedent.

Lemma dedent_indent16 bodies :
  bodies ≠ [] → Forall Textwrap.body_line bodies →
  Textwrap.dedent
    (Textwrap.join_lines (map (String.append indent16) bodies ++ [indent16]))
  = concat (map (λ b, b +:+ nl) bodies).
Proof. apply dedent_block; done. Qed.

Lemma one_line_app a b :
  Spec.one_line a → Spec.one_line b → Spec.one_line (a +:+ b).
Proof.
  unfold Spec.one_line. intros Ha Hb. by rewrite contains_app, Ha, Hb.
Qed.




(** ** Reading and writing files *)

Lemma read_state p fs : (FS.read p fs).2 = fs.
Proof. unfold FS.read. repeat case_match; reflexivity. Qed.

Lemma try_except_state {A} (body : M A) locals name handler fs :
  (body fs).2 = fs → (∀ e s, (handler e s).2 = s) →
  (try_except body locals name handler fs).2 = fs.
Proof.
  intros Hb Hh. unfold try_except.
  destruct (body fs) as [[a|e] s] eqn:E; simpl in *; subst; [done|].
  destruct (eval_except_class locals name); [|done].
  case_match; [apply Hh|done].
Qed.

Lemma discover_state rt base bv fs : (discover rt base bv fs).2 = fs.
Proof.
  unfold discover. unmonad.
  destruct (is_python_source_dir rt fs base).
  - match goal with |- context [try_except ?b ?l ?n ?h fs] =>
      assert ((try_except b l n h fs).2 = fs) as H;
      [ apply try_except_state | destruct (try_except b l n h fs) as [[x|e] s] ]
    end.
    + unmonad. pose proof (read_state (join base "pybuilddir.txt") fs).
      destruct (FS.read _ fs) as [[?|?] ?]; simpl in *; done.
    + intros e0 s0. unmonad. destruct (eval_name_str _ _); done.
    + simpl in *. by subst.
    + simpl in *. by subst.
  - repeat (case_match; simpl; try reflexivity); simplify_eq; done.
Qed.

Lemma discover_ok rt base bv fs r :
  (discover rt base bv fs).1 = r → discover rt base bv fs = (r, fs).
Proof.
  intros <-. rewrite <- (discover_state rt base bv fs) at 3.
  by destruct (discover rt base bv fs).
Qed.

Lemma exists_of_stat fs p n : FS.stat fs p = Some n → FS.exists_ fs p = true.
Proof. intros H. unfold FS.exists_. rewrite H. by apply bool_decide_eq_true. Qed.

Lemma read_file fs p text :
  FS.stat fs p = Some (File text) → FS.read p fs = (Ok text, fs).
Proof. intros H. unfold FS.read. by rewrite H. Qed.

Lemma write_at p c t (fs : gmap string node) :
  fs !! p = Some (File c) → FS.write p t fs = (Ok tt, <[p := File (c +:+ t)]> fs).
Proof. intros H. unfold FS.write. unmonad. by rewrite H. Qed.

Lemma write_open p c t (fs : gmap string node) :
  FS.write p t (<[p := File c]> fs) = (Ok tt, <[p := File (c +:+ t)]> fs).
Proof.
  rewrite (write_at p c t) by apply lookup_insert_eq.
  by rewrite insert_insert_eq.
Qed.

Lemma open_w_ok p (fs : gmap string node) :
  fs !! p ≠ Some Dir → FS.isdir fs (dirname p) = true →
  FS.open_w p fs = (Ok tt, <[p := File EmptyString]> fs).
Proof.
  intros H1 H2. unfold FS.open_w. rewrite H2.
  destruct (fs !! p) as [[]|]; done.
Qed.

Lemma write_sysroot_appends rt self p c (fs : gmap string node) :
  ∃ sys, write_sysroot rt self p (<[p := File c]> fs)
         = (Ok tt, <[p := File (c +:+ sys)]> fs).
Proof.
  unfold write_sysroot. destruct (truthy (host_sysroot self)).
  - unmonad. cbv beta.
    destruct (glob rt _ _) as [|l ls]; cbv beta iota.
    + destruct (FS.isdir _ _); cbn [negb]; cbv beta iota.
      * eexists. apply write_open.
      * exists EmptyString. by rewrite app_nil_r.
    + rewrite write_open.
      destruct (FS.isdir _ _); cbn [negb]; cbv beta iota.
      * rewrite write_open. rewrite app_assoc. by eexists.
      * by eexists.
  - exists EmptyString. by rewrite app_nil_r.
Qed.

Lemma write_env_var_line rt p e :
  write_env_var rt p (Spec.triple e) = FS.write p (Spec.assignment_line e).
Proof.
  destruct e as [name [] value]; unfold write_env_var, Spec.triple,
    Spec.assignment_line, Spec.guarded_export_line, Spec.export_line;
    cbn [Spec.var_name Spec.var_op Spec.var_value Spec.operator_token].
  - reflexivity.
  - rewrite ?app_assoc. reflexivity.
Qed.

Lemma write_env_vars rt p es c (fs : gmap string node) :
  for_ (map Spec.triple es) (write_env_var rt p) (<[p := File c]> fs)
  = (Ok tt, <[p := File (c +:+ concat (map Spec.assignment_line es))]> fs).
Proof.
  revert c. induction es as [|e es IH]; intros c.
  - cbn [map for_ concat]. unmonad. by rewrite app_nil_r.
  - cbn [map for_ concat]. unmonad. rewrite write_env_var_line, write_open, IH.
    by rewrite app_assoc.
Qed.

(** ** Paths below a directory *)

Lemma strip_prefix_Some a q r : FS.strip_prefix a q = Some r ↔ q = a +:+ r.
Proof.
  revert q. induction a as [|x a IH]; intros q; simpl.
  - split; [by intros [= ->]|by intros ->].
  - destruct q as [|y q]; [done|]. unfold ascii_eqb.
    destruct (Ascii.eqb_spec x y) as [->|Hne].
    + rewrite IH. rewrite app_cons. split; [by intros ->|by intros [= ->]].
    + split; [done|]. rewrite app_cons. intros [= -> _]. done.
Qed.

Lemma ends_with_slash_cons x s :
  s ≠ EmptyString → ends_with_slash (String x s) = ends_with_slash s.
Proof. by destruct s. Qed.

Lemma ends_with_slash_app a c s :
  ends_with_slash (a +:+ String c s) = ends_with_slash (String c s).
Proof.
  induction a as [|x a IH]; [done|]. rewrite app_cons.
  rewrite ends_with_slash_cons by apply app_nonempty. apply IH.
Qed.

Lemma ends_with_slash_contains s :
  ends_with_slash s = true → contains SLASH s = true.
Proof.
  induction s as [|x s IH]; [done|]. simpl. destruct s as [|y s].
  - intros ->. done.
  - intros H. rewrite (IH H). apply orb_true_r.
Qed.

Lemma dir_prefix_ends d : ends_with_slash (FS.dir_prefix d) = true.
Proof.
  unfold FS.dir_prefix. destruct (ends_with_slash d) eqn:E; [done|].
  unfold str1. by rewrite ends_with_slash_app.
Qed.

Lemma join_name env n :
  env ≠ EmptyString → FS.is_name n → join env n = FS.dir_prefix env +:+ n.
Proof.
  intros He [Hn Hs]. unfold join, FS.dir_prefix.
  destruct n as [|c n]; [done|]. simpl in Hs.
  apply orb_false_iff in Hs as [Hc _].
  assert (startswith (String c n) (str1 SLASH) = false) as ->.
  { unfold startswith, str1. cbn [String.prefix].
    destruct (ascii_dec SLASH c) as [<-|]; [|done].
    unfold ascii_eqb in Hc. by rewrite Ascii.eqb_refl in Hc. }
  destruct env; [done|]. destruct (ends_with_slash _); [done|].
  by rewrite app_assoc.
Qed.

Lemma dir_prefix_name P n :
  FS.is_name n → FS.dir_prefix (P +:+ n) = P +:+ n +:+ str1 SLASH.
Proof.
  intros [Hn Hs]. unfold FS.dir_prefix. destruct n as [|c n]; [done|].
  rewrite ends_with_slash_app.
  destruct (ends_with_slash (String c n)) eqn:E.
  - apply ends_with_slash_contains in E. congruence.
  - by rewrite app_assoc.
Qed.

Lemma under_name P n q :
  FS.is_name n →
  FS.under (P +:+ n) q = true ↔ ∃ x, FS.is_rest x ∧ q = P +:+ n +:+ x.
Proof.
  intros Hn. unfold FS.under. rewrite orb_true_iff, !bool_decide_eq_true.
  rewrite (dir_prefix_name P n Hn). split.
  - intros [->|[r Hr]].
    + exists EmptyString. split; [by left|]. by rewrite app_nil_r.
    + apply strip_prefix_Some in Hr. exists (str1 SLASH +:+ r).
      split; [right; by eexists|]. by rewrite Hr, !app_assoc.
  - intros (x & [->|[r ->]] & ->).
    + left. by rewrite app_nil_r.
    + right. exists r. apply strip_prefix_Some. by rewrite !app_assoc.
Qed.

Lemma name_unique a b x y :
  FS.is_name a → FS.is_name b → FS.is_rest x → FS.is_rest y →
  a +:+ x = b +:+ y → a = b.
Proof.
  intros [_ Ha] [_ Hb] Hx Hy. revert b Hb.
  induction a as [|c a IH]; intros b Hb E.
  - destruct b as [|d b]; [done|]. simpl in *. change (x = String d (b +:+ y)) in E.
    apply orb_false_iff in Hb as [Hd _].
    destruct Hx as [->|[r ->]]; [done|]. injection E as <- _.
    unfold ascii_eqb in Hd. by rewrite Ascii.eqb_refl in Hd.
  - destruct b as [|d b].
    + simpl in *. change (String c (a +:+ x) = y) in E.
      apply orb_false_iff in Ha as [Hc _].
      destruct Hy as [->|[r ->]]; [done|]. injection E as -> _.
      unfold ascii_eqb in Hc. by rewrite Ascii.eqb_refl in Hc.
    + rewrite !app_cons in E. injection E as -> E. simpl in *.
      apply orb_false_iff in Ha as [_ Ha]. apply orb_false_iff in Hb as [_ Hb].
      f_equal. by apply IH.
Qed.

Lemma under_disjoint env a b q :
  env ≠ EmptyString → FS.is_name a → FS.is_name b →
  FS.under (join env a) q = true → FS.under (join env b) q = true → a = b.
Proof.
  intros He Ha Hb. rewrite !join_name by done.
  rewrite !under_name by done.
  intros (x & Hx & ->) (y & Hy & E).
  apply (inj (String.app _)) in E. by apply (name_unique a b x y).
Qed.

Lemma under_root env a q :
  env ≠ EmptyString → FS.is_name a →
  FS.under (join env a) q = true → FS.under env q = true.
Proof.
  intros He Ha. rewrite join_name by done. rewrite under_name by done.
  intros (x & _ & ->). unfold FS.under. apply orb_true_iff. right.
  apply bool_decide_eq_true. exists (a +:+ x). by apply strip_prefix_Some.
Qed.

Lemma remove_path_lookup p (fs : gmap string node) q :
  (Utils.remove_path p fs).2 !! q = if FS.under p q then None else fs !! q.
Proof.
  unfold Utils.remove_path. unmonad. simpl.
  destruct (FS.under p q) eqn:E.
  - apply map_lookup_filter_None. right. intros x _. simpl. congruence.
  - destruct (fs !! q) as [n|] eqn:El.
    + apply map_lookup_filter_Some. done.
    + apply map_lookup_filter_None. by left.
Qed.

Lemma clear_loop env subs (fs : gmap string node) :
  ∃ fs1,
    for_ subs (λ sub,
      if bool_decide (sub ∈ ["cross"; "build"]) then ret tt
      else Utils.remove_path (join env sub)) fs = (Ok tt, fs1)
    ∧ ∀ q, fs1 !! q = if removed_by env subs q then None else fs !! q.
Proof.
  revert fs. induction subs as [|sub subs IH]; intros fs.
  - exists fs. done.
  - cbn [for_]. unmonad.
    destruct (bool_decide (sub ∈ ["cross"; "build"])) eqn:E.
    + destruct (IH fs) as (fs1 & -> & H). exists fs1. split; [done|].
      intros q. rewrite H. unfold removed_by. simpl. by rewrite E.
    + pose proof (remove_path_lookup (join env sub) fs) as Hr.
      destruct (Utils.remove_path (join env sub) fs) as [[[]|e] fs'] eqn:Er;
        [|by unfold Utils.remove_path in Er].
      destruct (IH fs') as (fs1 & -> & H). exists fs1. split; [done|].
      intros q. rewrite H. unfold removed_by. cbn [existsb]. rewrite E.
      simpl in Hr. rewrite Hr. cbn [negb andb].
      fold (removed_by env subs q).
      destruct (FS.under (join env sub) q), (removed_by env subs q); done.
Qed.

Lemma listdir_names env (fs : gmap string node) subs :
  FS.listdir env fs = (Ok subs, fs) → Forall FS.is_name subs.
Proof.
  unfold FS.listdir. destruct (FS.stat fs env) as [[]|]; try done.
  intros [= <-]. apply Forall_forall. intros n Hn.
  apply list_elem_of_omap in Hn as ([q x] & _ & Hq). simpl in Hq.
  unfold FS.entry_name in Hq.
  destruct (FS.strip_prefix _ _) as [m|]; [|done].
  destruct m as [|c m]; [done|].
  destruct (contains SLASH (String c m)) eqn:E; [done|].
  injection Hq as <-. split; done.
Qed.

Lemma listdir_entry env (fs : gmap string node) subs n x :
  env ≠ EmptyString →
  FS.listdir env fs = (Ok subs, fs) → FS.is_name n →
  fs !! (join env n) = Some x → n ∈ subs.
Proof.
  intros He Hl Hn Hx. unfold FS.listdir in Hl.
  destruct (FS.stat fs env) as [[]|]; try done.
  injection Hl as <-. apply list_elem_of_omap.
  exists (join env n, x). split; [by apply elem_of_map_to_list|]. simpl.
  rewrite join_name by done. unfold FS.entry_name.
  rewrite (proj2 (strip_prefix_Some _ _ n)) by done.
  destruct Hn as [Hn Hs]. destruct n; [done|]. by rewrite Hs.
Qed.

Lemma removed_by_false env subs q :
  (∀ sub, sub ∈ subs → sub ∉ ["cross"; "build"] →
          FS.under (join env sub) q = false) →
  removed_by env subs q = false.
Proof.
  intros H. unfold removed_by. apply not_true_is_false. intros E.
  apply existsb_exists in E as (sub & Hin & Hs).
  apply andb_true_iff in Hs as [Hn Hu].
  apply negb_true_iff, bool_decide_eq_false in Hn.
  rewrite H in Hu; [done| by apply list_elem_of_In |done].
Qed.

Lemma removed_by_true env subs sub q :
  sub ∈ subs → sub ∉ ["cross"; "build"] → FS.under (join env sub) q = true →
  removed_by env subs q = true.
Proof.
  intros Hin Hn Hu. unfold removed_by. apply existsb_exists.
  exists sub. split; [by apply list_elem_of_In|].
  rewrite Hu, andb_true_r. by apply negb_true_iff, bool_decide_eq_false.
Qed.

Lemma name_cross : FS.is_name "cross".
Proof. split; done. Qed.
Lemma name_build : FS.is_name "build".
Proof. split; done. Qed.
Lemma name_lib : FS.is_name "lib".
Proof. split; done. Qed.

Lemma stat_dir (fs : gmap string node) p :
  p ≠ EmptyString → fs !! p = Some Dir → FS.stat fs p = Some Dir.
Proof.
  intros Hp H. unfold FS.stat. destruct p; [done|]. simpl. by rewrite H.
Qed.

Lemma dir_prefix_length d : (String.length d ≤ String.length (FS.dir_prefix d))%nat.
Proof.
  unfold FS.dir_prefix. destruct (ends_with_slash d); [done|].
  rewrite length_app. lia.
Qed.

Lemma root_not_under env n :
  env ≠ EmptyString → FS.is_name n → FS.under (join env n) env = false.
Proof.
  intros He Hn. apply not_true_is_false. rewrite join_name by done.
  rewrite under_name by done. intros (x & _ & E).
  apply (f_equal String.length) in E. rewrite !length_app in E.
  pose proof (dir_prefix_length env). destruct Hn as [Hn _].
  destruct n; [done|]. simpl in E. lia.
Qed.

Lemma under_refl p : FS.under p p = true.
Proof. unfold FS.under. by rewrite bool_decide_eq_true_2. Qed.

Lemma listdir_elem env (fs : gmap string node) subs n :
  env ≠ EmptyString → FS.listdir env fs = (Ok subs, fs) →
  n ∈ subs ↔ FS.is_name n ∧ is_Some (fs !! (join env n)).
Proof.
  intros He Hl. split.
  - intros Hn. pose proof (listdir_names _ _ _ Hl) as Hf.
    rewrite Forall_forall in Hf. pose proof (Hf n Hn) as Hname.
    split; [done|]. rewrite join_name by done.
    unfold FS.listdir in Hl. destruct (FS.stat fs env) as [[]|]; try done.
    injection Hl as <-.
    apply list_elem_of_omap in Hn as ([q x] & Hq & Hs). simpl in Hs.
    apply elem_of_map_to_list in Hq.
    unfold FS.entry_name in Hs.
    destruct (FS.strip_prefix _ _) as [m|] eqn:E; [|done].
    apply strip_prefix_Some in E. destruct m as [|c m]; [done|].
    destruct (contains SLASH (String c m)); [done|]. injection Hs as <-.
    rewrite <- E. by eexists.
  - intros [Hn [x Hx]]. by eapply listdir_entry.
Qed.

Lemma listdir_dir env (fs : gmap string node) :
  FS.stat fs env = Some Dir → ∃ subs, FS.listdir env fs = (Ok subs, fs).
Proof. intros H. unfold FS.listdir. rewrite H. by eexists. Qed.

Lemma clear_loop_skip env subs (fs : gmap string node) :
  Forall (λ sub, sub ∈ ["cross"; "build"]) subs →
  for_ subs (λ sub,
    if bool_decide (sub ∈ ["cross"; "build"]) then ret tt
    else Utils.remove_path (join env sub)) fs = (Ok tt, fs).
Proof.
  induction 1 as [|sub subs Hs _ IH]; [done|].
  cbn [for_]. unmonad. by rewrite bool_decide_eq_true_2.
Qed.


(** ** The host interpreter locator *)

(** Once the two checks on the path have passed and a discovery branch has
    returned, the locator is the candidate check followed by the loading
    step. *)
Lemma find_host_python_candidates rt host fs mk home cands :
  FS.exists_ fs (abspath rt host) = true →
  FS.isfile fs (abspath rt host) = true →
  (discover rt (dirname (abspath rt host)) (config_VERSION rt) fs).1
    = Ok (mk, home, cands) →
  find_host_python rt host fs =
    (let* f := single_candidate cands in
     load_host rt (dirname (abspath rt host)) (config_VERSION rt) mk home f) fs.
Proof.
  intros Hex Hf Hd. apply discover_ok in Hd.
  unfold find_host_python. unmonad. rewrite Hex. simpl. rewrite Hf. simpl.
  by rewrite Hd.
Qed.

(** C1, as amended.  Let discovery yield exactly one configuration-data
    file, let that file load and define [CC] and [VERSION], and let the host
    makefile be a readable file.  If the extracted version differs from the
    running interpreter's, construction raises the version-mismatch error,
    whose message names the host version and then the build version; the
    file system is as it was, and a driver that goes on to call [create]
    for any list of directories stops at the constructor with the same
    error and the same file system.  If the versions are equal the locator
    returns the host descriptor. *)
Theorem version_mismatch_raised rt a fs mk home f vars cc hv text dirs :
  FS.exists_ fs (abspath rt (arg_host_python a)) = true →
  FS.isfile fs (abspath rt (arg_host_python a)) = true →
  (discover rt (dirname (abspath rt (arg_host_python a)))
     (config_VERSION rt) fs).1 = Ok (mk, home, [f]) →
  exec_module rt fs (splitext (basename f)).1 f = Ok vars →
  vars !! "CC" = Some cc →
  vars !! "VERSION" = Some hv →
  FS.stat fs mk = Some (File text) →
  (hv ≠ config_VERSION rt →
     init rt a fs =
       (Raise (Exn ValueError ("Version mismatch: host=" +:+ hv +:+ ", build="
                               +:+ config_VERSION rt)), fs)
     ∧ (let* b := init rt a in for_ dirs (create rt b)) fs =
       (Raise (Spec.VersionMismatch hv (config_VERSION rt)), fs))
  ∧ (hv = config_VERSION rt →
     find_host_python rt (arg_host_python a) fs =
       (Ok (HostInfo (dirname (abspath rt (arg_host_python a))) mk home f
              (splitext (basename f)).1 vars cc hv
              (scan_makefile (sys_platform rt) (readlines text))), fs)).
Proof.
  intros Hex Hf Hd Hm Hcc Hv Hmk.
  pose proof (find_host_python_candidates rt _ fs mk home [f] Hex Hf Hd) as E.
  assert (find_host_python rt (arg_host_python a) fs =
          if bool_decide (hv = config_VERSION rt)
          then (Ok (HostInfo (dirname (abspath rt (arg_host_python a))) mk home f
                  (splitext (basename f)).1 vars cc hv
                  (scan_makefile (sys_platform rt) (readlines text))), fs)
          else (Raise (Spec.VersionMismatch hv (config_VERSION rt)), fs)) as E'.
  { rewrite E. unfold load_host, getitem. unmonad. simpl.
    rewrite Hm, Hcc, Hv. simpl.
    rewrite (exists_of_stat _ _ _ Hmk). simpl.
    rewrite (read_file _ _ _ Hmk).
    by destruct (bool_decide (hv = config_VERSION rt)). }
  split.
  - intros Hne. rewrite bool_decide_eq_false_2 in E' by done.
    unfold init. unmonad. rewrite E'. done.
  - intros He. rewrite bool_decide_eq_true_2 in E' by done. done.
Qed.

(** A checkout of a host built as 3.9.7, inspected by a 3.10.0 build
    interpreter. *)
Lemma version_mismatch_raised_witness :
  init (Demo.runtime "3.10.0" "3.10" "3.9.7" Demo.gcc)
    (Demo.args "/src/cpython/python" None []) (Demo.checkout true)
  = (Raise (Exn ValueError "Version mismatch: host=3.9.7, build=3.10.0"),
     Demo.checkout true).
Proof.
  refine (proj1 (proj1
    (version_mismatch_raised (Demo.runtime "3.10.0" "3.10" "3.9.7" Demo.gcc)
       (Demo.args "/src/cpython/python" None []) (Demo.checkout true)
       "/src/cpython/Makefile" "/src/cpython"
       "/src/cpython/build/lib.linux-arm-3.9/_sysconfigdata__linux_arm.py"
       (Demo.build_time_vars "3.9.7") "arm-linux-gnueabi-gcc" "3.9.7"
       ("_PYTHON_HOST_PLATFORM=linux-arm" +:+ nl) ["/env"]
       _ _ _ _ _ _ _) _)).
  - vm_compute; reflexivity.
  - vm_compute; reflexivity.
  - vm_compute; reflexivity.
  - vm_compute; reflexivity.
  - vm_compute; reflexivity.
  - vm_compute; reflexivity.
  - vm_compute; reflexivity.
  - vm_compute. discriminate.
Defined.

(** C1 as stated fails: in the same checkout without its makefile the
    configuration data is discovered and records 3.9.7, the build
    interpreter is 3.10.0, and construction raises the missing-makefile
    error, which is not the version-mismatch error. *)
Lemma version_mismatch_needs_makefile :
  let rt := Demo.runtime "3.10.0" "3.10" "3.9.7" Demo.gcc in
  let fs := Demo.checkout false in
  let f := "/src/cpython/build/lib.linux-arm-3.9/_sysconfigdata__linux_arm.py" in
  (discover rt "/src/cpython" (config_VERSION rt) fs).1
    = Ok ("/src/cpython/Makefile", "/src/cpython", [f])
  ∧ exec_module rt fs (splitext (basename f)).1 f
    = Ok (Demo.build_time_vars "3.9.7")
  ∧ Demo.build_time_vars "3.9.7" !! "VERSION" = Some "3.9.7"
  ∧ "3.9.7" ≠ config_VERSION rt
  ∧ init rt (Demo.args "/src/cpython/python" None []) fs
    = (Raise (Exn FileNotFoundError "Cannot find Makefile"), fs)
  ∧ Exn FileNotFoundError "Cannot find Makefile"
    ≠ Spec.VersionMismatch "3.9.7" (config_VERSION rt).
Proof.
  repeat split; try (vm_compute; reflexivity); vm_compute; discriminate.
Qed.

(** C2.  After a discovery branch has returned its list of candidates, the
    candidate check raises the data-not-found error exactly when the list
    is empty and the ambiguous-installation error exactly when it has two
    or more entries, and the locator fails with these errors in these two
    cases; with exactly one candidate the check returns it and the locator
    goes on to load it. *)
Theorem candidate_count_decides rt host fs mk home cands :
  FS.exists_ fs (abspath rt host) = true →
  FS.isfile fs (abspath rt host) = true →
  (discover rt (dirname (abspath rt host)) (config_VERSION rt) fs).1
    = Ok (mk, home, cands) →
  (single_candidate cands fs = (Raise Spec.ConfigDataNotFound, fs)
     ↔ length cands = 0%nat)
  ∧ (single_candidate cands fs = (Raise Spec.AmbiguousInstallation, fs)
     ↔ (2 ≤ length cands)%nat)
  ∧ (length cands = 0%nat →
     find_host_python rt host fs = (Raise Spec.ConfigDataNotFound, fs))
  ∧ ((2 ≤ length cands)%nat →
     find_host_python rt host fs = (Raise Spec.AmbiguousInstallation, fs))
  ∧ (∀ f, cands = [f] →
     single_candidate cands fs = (Ok f, fs)
     ∧ find_host_python rt host fs =
         load_host rt (dirname (abspath rt host)) (config_VERSION rt)
           mk home f fs).
Proof.
  intros Hex Hf Hd.
  rewrite (find_host_python_candidates rt host fs mk home cands Hex Hf Hd).
  unmonad.
  destruct cands as [|f [|g r]]; simpl; repeat split; intros; simplify_eq;
    try done; try lia.
Qed.

(** An installed tree with two configuration-data files side by side. *)
Lemma candidate_count_decides_witness :
  find_host_python Demo.python39 "/opt/host/bin/python3.9" Demo.installed_twice
  = (Raise Spec.AmbiguousInstallation, Demo.installed_twice).
Proof.
  refine (proj1 (proj2 (proj2 (proj2
    (candidate_count_decides Demo.python39
       "/opt/host/bin/python3.9" Demo.installed_twice
       "/opt/host/lib/python3.9/config-3.9/Makefile" "/opt/host"
       ["/opt/host/lib/python3.9/_sysconfigdata__linux_arm.py";
        "/opt/host/lib/python3.9/_sysconfigdata__linux_x86.py"]
       _ _ _)))) _).
  - vm_compute; reflexivity.
  - vm_compute; reflexivity.
  - vm_compute; reflexivity.
  - simpl; lia.
Defined.

(** X3.  In an installed tree, when neither search location holds a
    configuration-data file but a sibling [lib/python*] directory does,
    discovery itself fails with the version-mismatch error: the host
    version it names is the suffix of that directory's name, and the
    candidate check is never reached. *)
Theorem other_version_reported rt base bv fs f0 rest :
  let host_home := dirname base in
  let libdir := join3 host_home "lib" ("python" +:+ config_py_version_short rt) in
  let anylib := join3 host_home "lib" "python*" in
  is_python_source_dir rt fs base = false →
  glob rt fs (join libdir "_sysconfigdata*.py") = [] →
  glob rt fs (join3 libdir "*" "_sysconfigdata*.py") = [] →
  glob rt fs (join anylib "_sysconfigdata*.py")
    ++ glob rt fs (join3 anylib "*" "_sysconfigdata*.py") = f0 :: rest →
  discover rt base bv fs
  = (Raise (Exn ValueError
              ("Version mismatch: host=" +:+ drop 6 (basename (dirname f0))
               +:+ ", build=" +:+ bv)), fs).
Proof.
  intros host_home libdir anylib Hsrc H1 H2 H3.
  unfold discover. unmonad. rewrite Hsrc.
  fold host_home. fold libdir. rewrite H1, H2.
  fold anylib. by rewrite H3.
Qed.

(** The installed 3.9 tree inspected by a 3.10 interpreter. *)
Lemma other_version_reported_witness :
  discover (Demo.runtime "3.10" "3.10" "3.9" Demo.gcc) "/opt/host/bin" "3.10"
    (Demo.installed true)
  = (Raise (Exn ValueError "Version mismatch: host=3.9, build=3.10"),
     Demo.installed true).
Proof.
  exact (other_version_reported (Demo.runtime "3.10" "3.10" "3.9" Demo.gcc)
           "/opt/host/bin" "3.10" (Demo.installed true)
           "/opt/host/lib/python3.9/_sysconfigdata__linux_arm.py" []
           ltac:(vm_compute; reflexivity) ltac:(vm_compute; reflexivity)
           ltac:(vm_compute; reflexivity) ltac:(vm_compute; reflexivity)).
Defined.

(** ** The environment directory manager *)

(** C3, as amended.  For a root that exists as a directory and for any
    resolved flags, the clearing pass of the directory-preparation step
    returns normally and leaves untouched the two named subareas [cross]
    and [build] with everything below them, and everything outside the
    root.  With no flag set it changes nothing.  With a flag set it
    removes every other entry of the root, with everything below it.
    Running the pass again on its result changes nothing and does not
    fail.  The whole step, which goes on to the environment primitive's
    own directory creation and to the staging directory, leaves a path of
    the two subareas as it was whenever that primitive does. *)
Theorem shared_areas_cleared rt self env (fs : gmap string node) :
  env ≠ EmptyString → fs !! env = Some Dir →
  ∃ fs1,
    clear_shared self env fs = (Ok tt, fs1)
    ∧ (∀ q, FS.under (join env "cross") q = true
            ∨ FS.under (join env "build") q = true
            ∨ FS.under env q = false →
            fs1 !! q = fs !! q)
    ∧ (clear_cross self || clear_build self = false → fs1 = fs)
    ∧ (clear_cross self || clear_build self = true →
       ∀ n x q, FS.is_name n → n ∉ ["cross"; "build"] →
                fs !! (join env n) = Some x →
                FS.under (join env n) q = true → fs1 !! q = None)
    ∧ clear_shared self env fs1 = (Ok tt, fs1)
    ∧ (∀ q, FS.under (join env "cross") q = true
            ∨ FS.under (join env "build") q = true →
            (∀ s, (venv_ensure_directories rt (base self) env s).2 !! q = s !! q) →
            (ensure_directories rt self env fs).2 !! q = fs !! q).
Proof.
  intros He Hroot.
  pose proof (stat_dir fs env He Hroot) as Hst.
  assert (FS.exists_ fs env = true) as Hex.
  { unfold FS.exists_. rewrite Hst. by apply bool_decide_eq_true. }
  destruct (listdir_dir env fs Hst) as [subs Hl].
  destruct (clear_loop env subs fs) as (fs1 & Hloop & Hlook).
  pose proof (listdir_names _ _ _ Hl) as Hnames. rewrite Forall_forall in Hnames.
  (* what a pass keeps *)
  assert (∀ q, FS.under (join env "cross") q = true
               ∨ FS.under (join env "build") q = true
               ∨ FS.under env q = false →
               removed_by env subs q = false) as Hkeep.
  { intros q Hq. apply removed_by_false. intros sub Hin Hnot.
    apply not_true_is_false. intros Hu.
    destruct Hq as [Hq|[Hq|Hq]].
    - assert (sub = "cross") as ->.
      { apply (under_disjoint env sub "cross" q);
          [done|by apply Hnames|apply name_cross|done|done]. }
      apply Hnot, list_elem_of_here.
    - assert (sub = "build") as ->.
      { apply (under_disjoint env sub "build" q);
          [done|by apply Hnames|apply name_build|done|done]. }
      apply Hnot, list_elem_of_further, list_elem_of_here.
    - rewrite (under_root env sub q) in Hq; [done|done|by apply Hnames|done]. }
  destruct (clear_cross self || clear_build self) eqn:Hflags.
  - (* a flag is set *)
    assert (clear_shared self env fs = (Ok tt, fs1)) as Hcs.
    { unfold clear_shared. unmonad. rewrite Hex, Hflags. simpl. by rewrite Hl. }
    assert (FS.stat fs1 env = Some Dir) as Hst1.
    { apply stat_dir; [done|]. rewrite Hlook.
      rewrite removed_by_false; [done|]. intros sub Hin _.
      apply root_not_under; [done|by apply Hnames]. }
    assert (∀ q, FS.under (join env "cross") q = true
                 ∨ FS.under (join env "build") q = true
                 ∨ FS.under env q = false → fs1 !! q = fs !! q) as Hframe.
    { intros q Hq. by rewrite Hlook, Hkeep. }
    exists fs1. split; [done|]. split; [done|]. split; [done|]. split.
    { intros _ n x q Hn Hnot Hx Hu. rewrite Hlook.
      rewrite (removed_by_true env subs n q); try done.
      eapply listdir_entry; eauto. }
    split.
    { unfold clear_shared. unmonad.
      assert (FS.exists_ fs1 env = true) as ->.
      { unfold FS.exists_. rewrite Hst1. by apply bool_decide_eq_true. }
      rewrite Hflags. simpl.
      destruct (listdir_dir env fs1 Hst1) as [subs1 Hl1]. rewrite Hl1.
      apply clear_loop_skip. apply Forall_forall. intros n Hn.
      apply (listdir_elem env fs1 subs1 n He Hl1) in Hn as [Hname [x Hx]].
      destruct (decide (n ∈ ["cross"; "build"])) as [|Hnot]; [done|].
      exfalso. rewrite Hlook in Hx.
      destruct (removed_by env subs (join env n)) eqn:Hr; [done|].
      rewrite (removed_by_true env subs n) in Hr; try done.
      - eapply listdir_entry; eauto.
      - apply under_refl. }
    { intros q Hq Hvenv. unfold ensure_directories. unmonad. rewrite Hcs.
      pose proof (Hvenv fs1) as Hv.
      destruct (venv_ensure_directories rt (base self) env fs1) as [[c|e] s] eqn:Ev;
        simpl in Hv.
      - unfold Utils.mkdir_if_needed. unmonad. simpl.
        assert (q ≠ join env "lib") as Hne.
        { intros ->. destruct Hq as [Hq|Hq].
          - by pose proof (under_disjoint env "cross" "lib" _ He name_cross name_lib Hq (under_refl _)).
          - by pose proof (under_disjoint env "build" "lib" _ He name_build name_lib Hq (under_refl _)). }
        destruct (s !! join env "lib").
        + rewrite Hv. apply Hframe. tauto.
        + rewrite lookup_insert_ne by done. rewrite Hv. apply Hframe. tauto.
      - simpl. rewrite Hv. apply Hframe. tauto. }
  - (* scope none *)
    assert (clear_shared self env fs = (Ok tt, fs)) as Hcs.
    { unfold clear_shared. unmonad. rewrite Hex, Hflags. done. }
    exists fs. split; [done|]. split; [done|]. split; [done|]. split; [done|].
    split; [done|].
    intros q Hq Hvenv. unfold ensure_directories. unmonad. rewrite Hcs.
    pose proof (Hvenv fs) as Hv.
    destruct (venv_ensure_directories rt (base self) env fs) as [[c|e] s] eqn:Ev;
      simpl in Hv; [|done].
    unfold Utils.mkdir_if_needed. unmonad. simpl.
    assert (q ≠ join env "lib") as Hne.
    { intros ->. destruct Hq as [Hq|Hq].
      - by pose proof (under_disjoint env "cross" "lib" _ He name_cross name_lib Hq (under_refl _)).
      - by pose proof (under_disjoint env "build" "lib" _ He name_build name_lib Hq (under_refl _)). }
    destruct (s !! join env "lib"); [done|].
    by rewrite lookup_insert_ne.
Qed.

(** A populated root, prepared by a builder that clears the build area. *)
Lemma shared_areas_cleared_witness :
  ∃ fs1,
    clear_shared Demo.self "/env" Demo.world = (Ok tt, fs1)
    ∧ fs1 !! "/env/build/pyvenv.cfg" = Demo.world !! "/env/build/pyvenv.cfg"
    ∧ fs1 !! "/env/lib/site.py" = None
    ∧ clear_shared Demo.self "/env" fs1 = (Ok tt, fs1).
Proof.
  destruct (shared_areas_cleared Demo.python39 Demo.self "/env" Demo.world
              ltac:(discriminate) ltac:(vm_compute; reflexivity))
    as (fs1 & Hrun & Hkeep & _ & Hgone & Hagain & _).
  exists fs1. split; [exact Hrun|]. split.
  - apply Hkeep. right. left. vm_compute; reflexivity.
  - split; [|exact Hagain].
    apply (Hgone ltac:(vm_compute; reflexivity) "lib" Dir).
    + split; [discriminate|reflexivity].
    + intros H. apply list_elem_of_In in H. simpl in H.
      destruct H as [H|[H|[]]]; discriminate H.
    + vm_compute; reflexivity.
    + vm_compute; reflexivity.
Defined.

(** C3 as stated fails: with only the build area selected, preparing a
    populated root removes a file that lies in neither named subarea, and
    does not delete the selected build area. *)
Lemma clearing_removes_shared_content :
  let fs' := (ensure_directories Demo.python39 Demo.self "/env" Demo.world).2 in
  clear_build Demo.self = true
  ∧ clear_cross Demo.self = false
  ∧ Demo.world !! "/env/notes.txt" = Some (File "keep me")
  ∧ FS.under "/env/cross" "/env/notes.txt" = false
  ∧ FS.under "/env/build" "/env/notes.txt" = false
  ∧ fs' !! "/env/notes.txt" = None
  ∧ fs' !! "/env/build/pyvenv.cfg" = Some (File ("home = /usr/bin" +:+ nl)).
Proof. repeat split; vm_compute; reflexivity. Qed.

(** ** The compiler probe *)

Lemma run_compiler_failure rt cc arg fs :
  (∀ out, spawn rt fs [cc; arg] ≠ Exited 0 out) →
  run_compiler rt cc arg fs = (Raise (name_error "CalledProcessError"), fs).
Proof.
  intros H. unfold run_compiler, try_except, check_output. unmonad.
  destruct (spawn rt fs [cc; arg]) as [code out|e] eqn:E.
  - destruct (code =? 0) eqn:Ec; [|done].
    apply Z.eqb_eq in Ec. subst. by destruct (H out).
  - done.
Qed.

Lemma run_compiler_success rt cc arg fs out :
  spawn rt fs [cc; arg] = Exited 0 out →
  run_compiler rt cc arg fs = (Ok (Some out), fs).
Proof.
  intros H. unfold run_compiler, try_except, check_output. unmonad.
  by rewrite H.
Qed.

(** C4, at the failing input: the compiler command is not on disk, so the
    version query cannot be started.  The [except] clause names
    [CalledProcessError], which the module never binds, and construction
    ends in a [NameError] instead of the compiler-unavailable error.  The
    file system is untouched. *)
Theorem absent_compiler_raises_name_error :
  let rt := Demo.runtime "3.9" "3.9" "3.9" Demo.absent in
  let fs := Demo.installed true in
  spawn rt fs ["arm-linux-gnueabi-gcc"; "--version"]
    = SpawnFailed (FS.enoent "arm-linux-gnueabi-gcc")
  ∧ init rt (Demo.args "/opt/host/bin/python3.9" None []) fs
    = (Raise (Exn NameError "name 'CalledProcessError' is not defined"), fs)
  ∧ (init rt (Demo.args "/opt/host/bin/python3.9" None []) fs).1
    ≠ Raise Spec.CompilerUnavailable.
Proof.
  repeat split; try (vm_compute; reflexivity); vm_compute; discriminate.
Qed.

(** C5, at the failing input: a compiler that answers the version query
    and exits with status 1 on the sysroot query.  Construction ends in
    the same [NameError]; no builder with an absent sysroot is returned. *)
Theorem failed_sysroot_query_raises :
  let rt := Demo.runtime "3.9" "3.9" "3.9" Demo.clang in
  let fs := Demo.installed true in
  spawn rt fs ["arm-linux-gnueabi-gcc"; "--version"]
    = Exited 0 ("clang version 11.0.0" +:+ nl)
  ∧ spawn rt fs ["arm-linux-gnueabi-gcc"; "-print-sysroot"]
    = Exited 1 EmptyString
  ∧ init rt (Demo.args "/opt/host/bin/python3.9" None []) fs
    = (Raise (Exn NameError "name 'CalledProcessError' is not defined"), fs).
Proof.
  repeat split; vm_compute; reflexivity.
Qed.

(** X1.  Whatever the compiler does, the probe never raises the
    compiler-unavailable error: a query that fails always ends in the
    unbound name. *)
Theorem compiler_unavailable_unreachable rt cc fs :
  (find_compiler_info rt cc fs).1 ≠ Raise Spec.CompilerUnavailable.
Proof.
  unfold find_compiler_info. unmonad.
  destruct (spawn rt fs [cc; "--version"]) as [code out|e] eqn:E.
  - destruct (decide (code = 0)) as [->|Hc].
    + rewrite (run_compiler_success _ _ _ _ _ E).
      destruct (spawn rt fs [cc; "-print-sysroot"]) as [code' out'|e'] eqn:E'.
      * destruct (decide (code' = 0)) as [->|Hc'].
        -- rewrite (run_compiler_success _ _ _ _ _ E'). done.
        -- rewrite run_compiler_failure; [done|]. intros o. rewrite E'. congruence.
      * rewrite run_compiler_failure; [done|]. intros o. rewrite E'. congruence.
    + rewrite run_compiler_failure; [done|]. intros o. rewrite E. congruence.
  - rewrite run_compiler_failure; [done|]. intros o. rewrite E. congruence.
Qed.

(** X2.  When both queries succeed the stripped output of the second is
    the recorded sysroot, and the file system is untouched. *)
Theorem sysroot_recorded rt cc fs version out :
  spawn rt fs [cc; "--version"] = Exited 0 version →
  spawn rt fs [cc; "-print-sysroot"] = Exited 0 out →
  find_compiler_info rt cc fs = (Ok (Some (strip out)), fs).
Proof.
  intros Hv Hs. unfold find_compiler_info. unmonad.
  rewrite (run_compiler_success _ _ _ _ _ Hv).
  by rewrite (run_compiler_success _ _ _ _ _ Hs).
Qed.

Lemma sysroot_recorded_witness :
  find_compiler_info Demo.python39 "arm-linux-gnueabi-gcc" (Demo.installed true)
  = (Ok (Some "/opt/sysroot"), Demo.installed true).
Proof.
  exact (sysroot_recorded Demo.python39 "arm-linux-gnueabi-gcc"
           (Demo.installed true) ("arm-linux-gnueabi-gcc 9.3.0" +:+ nl)
           ("/opt/sysroot" +:+ nl) eq_refl eq_refl).
Defined.

(** ** The delegation script *)

Lemma write_cross_script_content rt self context name stdlib es
    (fs : gmap string node) :
  fs !! cross_env_exe context ≠ Some Dir →
  FS.isdir fs (dirname (cross_env_exe context)) = true →
  extra_env_vars self = map Spec.triple es →
  ∃ sys,
    write_cross_script rt self context name stdlib fs
    = (Ok tt,
       <[cross_env_exe context :=
           File (Textwrap.dedent (cross_header self context name stdlib)
                 +:+ sys
                 +:+ concat (map Spec.assignment_line es)
                 +:+ Textwrap.dedent (cross_footer context))]> fs).
Proof.
  intros Ho Hd Hv. unfold write_cross_script. unmonad.
  rewrite (open_w_ok _ _ Ho Hd). rewrite write_open.
  change (EmptyString +:+ Textwrap.dedent (cross_header self context name stdlib))
    with (Textwrap.dedent (cross_header self context name stdlib)).
  destruct (write_sysroot_appends rt self (cross_env_exe context)
              (Textwrap.dedent (cross_header self context name stdlib)) fs)
    as [sys ->].
  rewrite Hv, write_env_vars, write_open.
  exists sys. by rewrite !app_assoc.
Qed.



(** C7.  For every list of assignments the script holds, between the
    lines that depend on the sysroot and the final delegation, one chunk
    per assignment, in the order of the list and duplicates included: an
    always-set entry is the unconditional export of its value, a
    set-if-unset entry is the same export behind the test that the
    variable expands to the empty string.  When names and values hold no
    line break each chunk is one line of the script. *)
Theorem assignments_emitted_in_order rt self context name stdlib es
    (fs : gmap string node) :
  fs !! cross_env_exe context ≠ Some Dir →
  FS.isdir fs (dirname (cross_env_exe context)) = true →
  extra_env_vars self = map Spec.triple es →
  let chunks :=
    map (λ e, match Spec.var_op e with
              | Spec.AlwaysSet =>
                  "export " +:+ Spec.var_name e +:+ "=" +:+ Spec.var_value e
                  +:+ nl
              | Spec.SetIfUnset =>
                  "[ -z " +:+ dq +:+ "${" +:+ Spec.var_name e +:+ "}" +:+ dq
                  +:+ " ] && export " +:+ Spec.var_name e +:+ "="
                  +:+ Spec.var_value e +:+ nl
              end) es in
  (∃ sys,
     write_cross_script rt self context name stdlib fs
     = (Ok tt,
        <[cross_env_exe context :=
            File (Textwrap.dedent (cross_header self context name stdlib)
                  +:+ sys
                  +:+ concat chunks
                  +:+ Textwrap.dedent (cross_footer context))]> fs))
  ∧ length chunks = length es
  ∧ (Forall (λ e, Spec.one_line (Spec.var_name e)
                  ∧ Spec.one_line (Spec.var_value e)) es →
     readlines (concat chunks) = chunks).
Proof.
  intros Ho Hd Hv chunks.
  assert (chunks = map Spec.assignment_line es) as Hc.
  { subst chunks. apply map_ext. intros [n [] v]; [done|].
    unfold Spec.assignment_line, Spec.guarded_export_line, Spec.export_line.
    simpl. rewrite ?app_assoc. reflexivity. }
  split; [|split].
  - rewrite Hc. by apply write_cross_script_content.
  - subst chunks. apply length_map.
  - intros Hl. apply readlines_chunks. subst chunks.
    apply Forall_map. eapply Forall_impl; [exact Hl|].
    intros [n [] v] [Hn Hval]; simpl in *.
    + exists ("export " +:+ n +:+ "=" +:+ v). split.
      * rewrite ?app_assoc. reflexivity.
      * unfold Spec.one_line in *. rewrite !contains_app, Hn, Hval. reflexivity.
    + exists ("[ -z " +:+ dq +:+ "${" +:+ n +:+ "}" +:+ dq
              +:+ " ] && export " +:+ n +:+ "=" +:+ v). split.
      * rewrite ?app_assoc. reflexivity.
      * unfold Spec.one_line in *. rewrite !contains_app, Hn, Hval. reflexivity.
Qed.

(** The assignments [FOO=bar] and [BAZ?=qux]. *)
Lemma assignments_emitted_in_order_witness :
  readlines
    (concat ["export FOO=bar" +:+ nl;
             "[ -z " +:+ dq +:+ "${BAZ}" +:+ dq +:+ " ] && export BAZ=qux" +:+ nl])
  = ["export FOO=bar" +:+ nl;
     "[ -z " +:+ dq +:+ "${BAZ}" +:+ dq +:+ " ] && export BAZ=qux" +:+ nl].
Proof.
  refine (proj2 (proj2
    (assignments_emitted_in_order Demo.python39 Demo.self Demo.context
       "_sysconfigdata__linux_arm" "/usr/lib/python3.9"
       Demo.assignments Demo.world _ _ _)) _).
  - vm_compute; discriminate.
  - vm_compute; reflexivity.
  - vm_compute; reflexivity.
  - repeat constructor.
Defined.

(** ** The environment descriptor *)

Lemma rewrite_home_map base lines out :
  rewrite_home base lines out
  = out +:+ concat (map (Spec.rewrite_line base) lines).
Proof.
  revert out. induction lines as [|l lines IH]; intros out; simpl.
  - by rewrite app_nil_r.
  - rewrite IH, app_assoc. reflexivity.
Qed.

(** C8.  The descriptor is the concatenation of its lines.  Rewriting it
    publishes the concatenation of as many lines, in the same order: a
    line whose first two blank-separated tokens are [home] and [=] becomes
    the line that assigns the host project base to [home], and every other
    line is kept as it is. *)
Theorem home_line_rewritten self context fs text :
  FS.stat fs (cross_cfg_path context) = Some (File text) →
  let base := host_project_base (host self) in
  let lines := readlines text in
  let lines' :=
    map (λ line, if bool_decide (take 2 (words line) = ["home"; "="])
                 then "home = " +:+ base +:+ nl else line) lines in
  concat lines = text
  ∧ alter_pyvenv_cfg self context fs
    = (Ok tt, <[cross_cfg_path context := File (concat lines')]> fs)
  ∧ length lines' = length lines
  ∧ (∀ i line, lines !! i = Some line →
       take 2 (words line) ≠ ["home"; "="] → lines' !! i = Some line)
  ∧ (∀ i line, lines !! i = Some line →
       take 2 (words line) = ["home"; "="] →
       lines' !! i = Some ("home = " +:+ base +:+ nl)).
Proof.
  intros Hst base lines lines'. split; [apply readlines_concat|]. split.
  - unfold alter_pyvenv_cfg, Utils.overwrite_file. unmonad.
    rewrite (read_file _ _ _ Hst). rewrite rewrite_home_map. reflexivity.
  - split; [apply length_map|]. split; intros i line Hi Hw; subst lines';
      rewrite list_lookup_fmap, Hi; simpl.
    + by rewrite bool_decide_eq_false_2.
    + by rewrite bool_decide_eq_true_2.
Qed.

(** The descriptor that the environment primitive wrote for the cross
    area. *)
Lemma home_line_rewritten_witness :
  let fs := (venv_create Demo.python39 (VenvFlags false false true false false)
               "/env/cross" Demo.world).2 in
  alter_pyvenv_cfg Demo.self Demo.context fs
  = (Ok tt,
     <["/env/cross/pyvenv.cfg" :=
         File ("home = /opt/host/bin" +:+ nl +:+
               "include-system-site-packages = false" +:+ nl +:+
               "version = 3.9.7" +:+ nl)]> fs).
Proof.
  exact (proj1 (proj2
    (home_line_rewritten Demo.self Demo.context
       (venv_create Demo.python39 (VenvFlags false false true false false)
          "/env/cross" Demo.world).2
       ("home = /usr/bin" +:+ nl +:+
        "include-system-site-packages = false" +:+ nl +:+
        "version = 3.9.7" +:+ nl)
       ltac:(vm_compute; reflexivity)))).
Defined.

(** ** The constructor's flags *)

(** C9.  A constructed builder clears the build area exactly for the
    scopes default, build-only and both, whatever the cross location.  It
    clears the cross area exactly for cross-only and both when an external
    cross location was supplied, and exactly for default, cross-only and
    both when none was.  A location counts as supplied when the
    constructor's test of it succeeds, that is when it is a non-empty
    path. *)
Theorem clear_scope_resolution rt a fs b fs' scope :
  init rt a fs = (Ok b, fs') →
  arg_clear a = Spec.clear_value scope →
  clear_build b =
    match scope with
    | Spec.Default | Spec.BuildOnly | Spec.Both => true
    | _ => false
    end
  ∧ clear_cross b =
    if truthy (arg_cross_prefix a)
    then match scope with
         | Spec.CrossOnly | Spec.Both => true
         | _ => false
         end
    else match scope with
         | Spec.Default | Spec.CrossOnly | Spec.Both => true
         | _ => false
         end.
Proof.
  unfold init. unmonad. intros H Hc.
  destruct (find_host_python rt (arg_host_python a) fs) as [[hi|?] s1]; [|done].
  destruct (find_compiler_info rt (host_cc hi) s1) as [[sr|?] s2]; [|done].
  rewrite Hc in H.
  destruct (truthy (arg_cross_prefix a)); inversion H; subst; simpl;
    destruct scope; split; reflexivity.
Qed.

(** The default scope with no external cross location clears both. *)
Lemma clear_scope_resolution_witness :
  let b := Demo.built (init Demo.python39
                         (Demo.args "/opt/host/bin/python3.9" (Some "default") [])
                         (Demo.installed true)) in
  clear_build b = true ∧ clear_cross b = true.
Proof.
  exact (clear_scope_resolution Demo.python39
           (Demo.args "/opt/host/bin/python3.9" (Some "default") [])
           (Demo.installed true) _ (Demo.installed true) Spec.Default
           ltac:(vm_compute; reflexivity) ltac:(reflexivity)).
Defined.

(** ** The configuration writer *)

Lemma scan_makefile_default platform lines :
  Forall (λ line, startswith (strip line) "_PYTHON_HOST_PLATFORM=" = false)
    lines →
  scan_makefile platform lines = platform.
Proof. induction 1 as [|l ls Hl _ IH]; [done|]. simpl. by rewrite Hl. Qed.

(** C10.  The configuration writer splits the host platform at every
    hyphen and unpacks the parts into exactly two names.  When the
    platform does not have exactly one hyphen the writer raises a
    [ValueError] and leaves the file system as it is, so no descriptor is
    produced, and no [create] returns normally: one that gets through the
    directory preparation fails in the writer.  With exactly one hyphen
    the two names are the text before and after it.  The platform the
    locator records is the running system's whenever no stripped line of
    the makefile starts with the platform key. *)
Theorem platform_needs_two_components rt self context fs :
  let platform := host_platform (host self) in
  (count (chr 45) platform ≠ 1%nat →
     (∃ msg, create_configuration rt self context fs
             = (Raise (Exn ValueError msg), fs))
     ∧ (∀ env_dir c fs1,
          ensure_directories rt self (abspath rt env_dir) fs = (Ok c, fs1) →
          ∃ msg, create rt self env_dir fs = (Raise (Exn ValueError msg), fs1))
     ∧ (∀ env_dir, (create rt self env_dir fs).1 ≠ Ok tt))
  ∧ (count (chr 45) platform = 1%nat →
     ∃ sysname machine,
       platform = sysname +:+ "-" +:+ machine
       ∧ unpack2 (split (chr 45) platform) fs = (Ok (sysname, machine), fs))
  ∧ (∀ lines,
       Forall (λ line, startswith (strip line) "_PYTHON_HOST_PLATFORM=" = false)
         lines →
       scan_makefile (sys_platform rt) lines = sys_platform rt).
Proof.
  intros platform. split; [|split].
  - intros Hc.
    assert (∀ c s, ∃ msg, create_configuration rt self c s
                          = (Raise (Exn ValueError msg), s)) as Hcfg.
    { intros c s. unfold create_configuration, unpack2. unmonad.
      pose proof (split_length (chr 45) (host_platform (host self))) as L.
      destruct (split (chr 45) (host_platform (host self))) as [|a [|b [|d r]]];
        simpl in L; try (eexists; reflexivity).
      subst platform. lia. }
    split; [apply Hcfg|]. split.
    + intros env_dir c fs1 He. unfold create. unmonad. rewrite He.
      destruct (Hcfg c fs1) as [msg ->]. by exists msg.
    + intros env_dir. unfold create. unmonad.
      destruct (ensure_directories rt self (abspath rt env_dir) fs)
        as [[c|e] s1]; [|done].
      destruct (Hcfg c s1) as [msg ->]. done.
  - intros Hc. destruct (split_one _ _ Hc) as (a & b & Hs & Hp).
    exists a, b. split; [exact Hp|]. by rewrite Hs.
  - intros lines. apply scan_makefile_default.
Qed.

(** A host whose makefile names no platform is recorded with the running
    system's platform, [linux], and no environment can be created for
    it. *)
Lemma platform_needs_two_components_witness :
  host_platform (host Demo.native) = "linux"
  ∧ (create Demo.python39 Demo.native "/env" Demo.world).1 ≠ Ok tt.
Proof.
  split; [vm_compute; reflexivity|].
  exact (proj2 (proj2 (proj1
    (platform_needs_two_components Demo.python39 Demo.native Demo.context
       Demo.world) ltac:(vm_compute; discriminate))) "/env").
Defined.

(** * Further properties

    What the remaining functions do, read off the code: the locator's
    other failures, the scan of the makefile, the command line's
    assignments, the binaries of the cross environment, the descriptor,
    the search path of the build interpreter and the activation script. *)

(** ** The constructor only reads *)

Lemma load_host_state rt base bv mk home f fs :
  (load_host rt base bv mk home f fs).2 = fs.
Proof.
  unfold load_host, getitem. unmonad.
  destruct (exec_module rt fs _ f) as [vars|e]; [|done].
  destruct (vars !! "CC") as [cc|]; [|done]. cbv beta iota.
  destruct (vars !! "VERSION") as [hv|]; [|done]. cbv beta iota.
  destruct (FS.exists_ fs mk); cbn [negb]; [|done].
  pose proof (read_state mk fs) as Hr.
  destruct (FS.read mk fs) as [[text|e] fs1]; simpl in Hr; subst; [|done].
  by destruct (bool_decide _).
Qed.

Lemma find_host_python_state rt host fs :
  (find_host_python rt host fs).2 = fs.
Proof.
  unfold find_host_python. unmonad.
  destruct (FS.exists_ fs (abspath rt host)); cbn [negb]; [|done].
  destruct (FS.isfile fs (abspath rt host)); cbn [negb]; [|done].
  pose proof (discover_state rt (dirname (abspath rt host)) (config_VERSION rt) fs)
    as Hd.
  destruct (discover _ _ _ fs) as [[[[mk home] cands]|e] fs1]; simpl in Hd; subst;
    [|done].
  destruct cands as [|f [|g r]]; simpl; try done.
  apply load_host_state.
Qed.

Lemma run_compiler_state rt cc arg fs : (run_compiler rt cc arg fs).2 = fs.
Proof.
  unfold run_compiler. apply try_except_state.
  - unfold check_output. unmonad.
    destruct (spawn rt fs [cc; arg]) as [code out|e]; [|done].
    by destruct (code =? 0).
  - done.
Qed.




(** A run that returned, as a test. *)
Lemma built_ok r :
  match r.1 with Ok _ => true | Raise _ => false end = true →
  r.1 = Ok (Demo.built r).
Proof. unfold Demo.built. by destruct r.1. Qed.





(** ** Other failures of the locator *)

(** X6.  A host path that does not name a regular file stops the
    construction at the first two checks, before any discovery: a path
    that exists (a directory, say) is refused with the error that asks for
    the path of an executable, and a path that does not exist, a dangling
    link included, with the error that says so; both messages carry the
    absolute path. *)
Theorem host_path_rejected rt a fs :
  FS.isfile fs (abspath rt (arg_host_python a)) = false →
  init rt a fs
  = (Raise (if FS.exists_ fs (abspath rt (arg_host_python a))
            then Exn ValueError
                   ("Expected a path to a Python executable. Got "
                    +:+ abspath rt (arg_host_python a))
            else Exn FileNotFoundError
                   (abspath rt (arg_host_python a) +:+ " does not exist")),
     fs).
Proof.
  intros Hf. unfold init, find_host_python. unmonad.
  destruct (FS.exists_ fs (abspath rt (arg_host_python a))); cbn [negb]; [|done].
  by rewrite Hf.
Qed.

(** The directory of the host interpreter instead of the interpreter. *)
Lemma host_path_rejected_witness :
  init Demo.python39 (Demo.args "/opt/host/bin" None []) (Demo.installed true)
  = (Raise (Exn ValueError
              "Expected a path to a Python executable. Got /opt/host/bin"),
     Demo.installed true).
Proof.
  refine (host_path_rejected Demo.python39 (Demo.args "/opt/host/bin" None [])
            (Demo.installed true) _).
  vm_compute; reflexivity.
Defined.

Lemma isfile_exists fs p : FS.isfile fs p = true → FS.exists_ fs p = true.
Proof.
  unfold FS.isfile, FS.exists_. destruct (FS.stat fs p); [|done].
  intros _. by apply bool_decide_eq_true.
Qed.

(** X7.  In a source checkout whose [pybuilddir.txt] cannot be read as a
    file (it is missing, or it is a directory), the locator does not raise
    the error that asks to build the host interpreter first: the handler
    formats its message with the name [s], which is bound nowhere, and the
    locator ends with the name error for [s]. *)
Theorem unreadable_pybuilddir_raises_name_error rt host fs :
  FS.isfile fs (abspath rt host) = true →
  is_python_source_dir rt fs (dirname (abspath rt host)) = true →
  FS.isfile fs (join (dirname (abspath rt host)) "pybuilddir.txt") = false →
  find_host_python rt host fs = (Raise (name_error "s"), fs).
Proof.
  intros Hf Hsrc Hp. unfold find_host_python. unmonad.
  rewrite (isfile_exists _ _ Hf). cbn [negb]. rewrite Hf. cbn [negb].
  unfold discover. unmonad. rewrite Hsrc.
  unfold try_except, FS.read. unmonad. unfold FS.isfile in Hp.
  destruct (FS.stat fs (join (dirname (abspath rt host)) "pybuilddir.txt"))
    as [[c| |t]|]; done.
Qed.

(** The checkout before its first build. *)
Lemma unreadable_pybuilddir_raises_name_error_witness :
  find_host_python Demo.python39 "/src/cpython/python"
    (delete "/src/cpython/pybuilddir.txt" (Demo.checkout true))
  = (Raise (Exn NameError "name 's' is not defined"),
     delete "/src/cpython/pybuilddir.txt" (Demo.checkout true)).
Proof.
  refine (unreadable_pybuilddir_raises_name_error Demo.python39
            "/src/cpython/python"
            (delete "/src/cpython/pybuilddir.txt" (Demo.checkout true)) _ _ _).
  - vm_compute; reflexivity.
  - vm_compute; reflexivity.
  - vm_compute; reflexivity.
Defined.

Lemma exists_empty fs : FS.exists_ fs EmptyString = false.
Proof. reflexivity. Qed.

Lemma load_host_no_makefile rt base bv mk home f fs :
  FS.exists_ fs mk = false →
  ∃ e, load_host rt base bv mk home f fs = (Raise e, fs).
Proof.
  intros Hmk. unfold load_host, getitem. unmonad.
  destruct (exec_module rt fs _ f) as [vars|e]; [|by eexists].
  destruct (vars !! "CC") as [cc|]; [|by eexists]. cbv beta iota.
  destruct (vars !! "VERSION") as [hv|]; [|by eexists]. cbv beta iota.
  rewrite Hmk. by eexists.
Qed.

(** X8.  An installed host tree in which no directory directly below
    [lib/pythonX.Y] holds a [Makefile] is always refused: the makefile
    path is left empty to fail later, the empty path never exists, and so
    the locator ends with an error on every path through it, with the
    file system as it was. *)
Theorem installed_tree_needs_makefile rt host fs :
  let base := dirname (abspath rt host) in
  let libdir :=
    join3 (dirname base) "lib" ("python" +:+ config_py_version_short rt) in
  is_python_source_dir rt fs base = false →
  glob rt fs (join3 libdir "*" "Makefile") = [] →
  ∃ e, find_host_python rt host fs = (Raise e, fs).
Proof.
  intros base libdir Hsrc Hmk. unfold find_host_python. unmonad.
  destruct (FS.exists_ fs (abspath rt host)); cbn [negb]; [|by eexists].
  destruct (FS.isfile fs (abspath rt host)); cbn [negb]; [|by eexists].
  unfold discover. unmonad. cbv zeta. fold base. rewrite Hsrc. fold libdir.
  cbv beta iota.
  destruct (glob rt fs (join libdir "_sysconfigdata*.py")) as [|f [|g r]];
    cbv beta iota.
  - destruct (glob rt fs (join3 libdir "*" "_sysconfigdata*.py")) as [|f [|g r]];
      cbv beta iota.
    + destruct (_ ++ _); cbv beta iota; [|by eexists]. rewrite Hmk. by eexists.
    + rewrite Hmk. apply load_host_no_makefile, exists_empty.
    + rewrite Hmk. by eexists.
  - rewrite Hmk. apply load_host_no_makefile, exists_empty.
  - rewrite Hmk. by eexists.
Qed.

(** The installed tree without its development files. *)
Lemma installed_tree_needs_makefile_witness :
  ∃ e, find_host_python Demo.python39 "/opt/host/bin/python3.9"
         (Demo.installed false)
       = (Raise e, Demo.installed false).
Proof.
  refine (installed_tree_needs_makefile Demo.python39 "/opt/host/bin/python3.9"
            (Demo.installed false) _ _).
  - vm_compute; reflexivity.
  - vm_compute; reflexivity.
Defined.

(** X9.  When the single configuration-data file loads but its
    [build_time_vars] lack [CC] or [VERSION], the locator ends with the
    key error of the first missing key, [CC] before [VERSION]; the
    makefile is not looked at and no version is compared. *)
Theorem config_data_needs_cc_and_version rt host fs mk home f vars :
  FS.isfile fs (abspath rt host) = true →
  (discover rt (dirname (abspath rt host)) (config_VERSION rt) fs).1
    = Ok (mk, home, [f]) →
  exec_module rt fs (fst (splitext (basename f))) f = Ok vars →
  vars !! "CC" = None ∨ vars !! "VERSION" = None →
  find_host_python rt host fs
  = (Raise (Exn KeyError (match vars !! "CC" with
                          | Some _ => "'VERSION'"
                          | None => "'CC'"
                          end)), fs).
Proof.
  intros Hf Hd He Hv.
  rewrite (find_host_python_candidates rt host fs mk home [f]
             (isfile_exists _ _ Hf) Hf Hd).
  unfold single_candidate, load_host, getitem. unmonad. rewrite He.
  destruct (vars !! "CC") as [cc|]; [|done]. cbv beta iota.
  destruct Hv as [Hv|Hv]; [done|]. by rewrite Hv.
Qed.

(** Configuration data that names the compiler only. *)
Lemma config_data_needs_cc_and_version_witness :
  find_host_python (Demo.without_version Demo.python39)
    "/opt/host/bin/python3.9" (Demo.installed true)
  = (Raise (Exn KeyError "'VERSION'"), Demo.installed true).
Proof.
  refine (config_data_needs_cc_and_version (Demo.without_version Demo.python39)
            "/opt/host/bin/python3.9" (Demo.installed true)
            "/opt/host/lib/python3.9/config-3.9/Makefile" "/opt/host"
            "/opt/host/lib/python3.9/_sysconfigdata__linux_arm.py"
            {[ "CC" := "arm-linux-gnueabi-gcc" ]} _ _ _ _).
  - vm_compute; reflexivity.
  - vm_compute; reflexivity.
  - reflexivity.
  - right. vm_compute; reflexivity.
Defined.

(** ** The scan of the makefile *)

Lemma startswith_app p s : startswith (p +:+ s) p = true.
Proof.
  unfold startswith. induction p as [|c p IH]; [by destruct s|].
  rewrite app_cons. cbn [String.prefix]. by destruct (ascii_dec c c).
Qed.

Lemma split1_app c a r :
  contains c a = false → split1 c (a +:+ str1 c +:+ r) = [a; r].
Proof.
  induction a as [|x a IH]; simpl.
  - intros _. change (str1 c +:+ r) with (String c r). simpl.
    unfold ascii_eqb. by rewrite Ascii.eqb_refl.
  - rewrite ?app_cons. simpl. destruct (ascii_eqb x c); [done|]. simpl.
    intros H. by rewrite IH.
Qed.

Lemma split1_whole c a : contains c a = false → split1 c a = [a].
Proof.
  induction a as [|x a IH]; [done|]. simpl.
  destruct (ascii_eqb x c); [done|]. simpl. intros H. by rewrite IH.
Qed.

Lemma contains_cut c s :
  contains c s = true →
  ∃ a b, s = a +:+ str1 c +:+ b ∧ contains c a = false.
Proof.
  induction s as [|x s IH]; [done|]. simpl.
  destruct (ascii_eqb x c) eqn:E.
  - intros _. apply Ascii.eqb_eq in E. subst. by exists EmptyString, s.
  - simpl. intros H. destruct (IH H) as (a & b & -> & Ha).
    exists (String x a), b. split; [done|]. simpl. by rewrite E.
Qed.

(** X10.  The host platform read from the makefile is decided by the
    first line that, once stripped of surrounding white space, starts with
    [_PYTHON_HOST_PLATFORM=]: the platform is everything behind that first
    equals sign, further equals signs included, and no later line, not
    even another assignment of the key, changes it. *)
Theorem first_platform_line_decides default before line after value :
  Forall (λ l, startswith (strip l) "_PYTHON_HOST_PLATFORM=" = false) before →
  strip line = "_PYTHON_HOST_PLATFORM=" +:+ value →
  scan_makefile default (before ++ line :: after) = value.
Proof.
  intros Hb Hl. induction Hb as [|l ls Hl' _ IH].
  - cbn [app scan_makefile]. rewrite Hl, startswith_app.
    change ("_PYTHON_HOST_PLATFORM=" +:+ value)
      with ("_PYTHON_HOST_PLATFORM" +:+ str1 (chr 61) +:+ value).
    by rewrite split1_app.
  - cbn [app scan_makefile]. by rewrite Hl'.
Qed.

(** An indented assignment with a second equals sign, and a later one. *)
Lemma first_platform_line_decides_witness :
  scan_makefile "linux"
    ["CC=gcc" +:+ nl; "  _PYTHON_HOST_PLATFORM=linux-arm=v7  " +:+ nl;
     "_PYTHON_HOST_PLATFORM=other" +:+ nl]
  = "linux-arm=v7".
Proof.
  refine (first_platform_line_decides "linux" ["CC=gcc" +:+ nl]
            ("  _PYTHON_HOST_PLATFORM=linux-arm=v7  " +:+ nl)
            ["_PYTHON_HOST_PLATFORM=other" +:+ nl] "linux-arm=v7" _ _).
  - repeat constructor.
  - vm_compute; reflexivity.
Defined.

(** ** The assignments of the command line *)

Lemma ends_with_app c a : Main.ends_with c (a +:+ str1 c) = true.
Proof.
  induction a as [|x a IH].
  - simpl. unfold ascii_eqb. apply Ascii.eqb_refl.
  - rewrite app_cons. cbn [Main.ends_with].
    destruct (a +:+ str1 c) eqn:E; [by destruct a|done].
Qed.

Lemma drop_last_app c a : Main.drop_last (a +:+ str1 c) = a.
Proof.
  induction a as [|x a IH]; [done|]. rewrite app_cons. cbn [Main.drop_last].
  destruct (a +:+ str1 c) eqn:E; [by destruct a|]. by rewrite IH.
Qed.

Lemma ends_with_cut c x :
  Main.ends_with c x = true → x = Main.drop_last x +:+ str1 c.
Proof.
  induction x as [|a x IH]; [done|]. destruct x as [|b x].
  - simpl. intros E. apply Ascii.eqb_eq in E. by subst.
  - intros E. change (Main.ends_with c (String b x) = true) in E.
    change (Main.drop_last (String a (String b x)))
      with (String a (Main.drop_last (String b x))).
    rewrite app_cons. by rewrite <- IH.
Qed.

Lemma lstrip_nonspace s :
  (∀ c r, s = String c r → isspace c = false) → lstrip s = s.
Proof. destruct s as [|c r]; [done|]. intros H. simpl. by rewrite (H c r). Qed.

Lemma parse_env_var_ok rt spec fs n a v fs' :
  Main.parse_env_var rt spec fs = (Ok (n, a, v), fs') →
  fs' = fs ∧ str_isidentifier rt n = true
  ∧ ∃ op, (n, a, v) = Spec.triple (Spec.Assign n op v)
     ∧ lstrip spec = n +:+ a +:+ v ∧ contains (chr 61) n = false.
Proof.
  unfold Main.parse_env_var, unpack2. unmonad.
  destruct (contains (chr 61) (lstrip spec)) eqn:Ec.
  - destruct (contains_cut _ _ Ec) as (x & y & E & Hx). rewrite E.
    rewrite split1_app by done.
    destruct (Main.ends_with (chr 63) x) eqn:Ee;
      destruct (str_isidentifier rt _) eqn:Ei; cbn [negb]; intros [= <- <- <- <-];
      (split; [done|]); (split; [done|]).
    + exists Spec.SetIfUnset. split; [done|].
      pose proof (ends_with_cut _ _ Ee) as Hx'.
      split.
      * rewrite Hx' at 1. by rewrite !app_assoc.
      * rewrite Hx', contains_app in Hx. by apply orb_false_iff in Hx as [? _].
    + exists Spec.AlwaysSet. done.
  - rewrite split1_whole by done. done.
Qed.

(** X11.  When the parser of the command line's assignments returns, it
    has changed nothing and its result is a list of well-formed
    assignments, one per argument and in the order of the arguments: each
    argument, stripped of leading white space, is the name, the operator
    token ([=] or [?=]) and the value of its assignment put together; the
    name is an identifier without an equals sign, and the value is all the
    text behind the first equals sign.  So the loop that writes the
    assignments into the cross script never meets a bad operator on what
    the parser produced: it returns, having appended one line per
    assignment. *)
Theorem parsed_assignments_are_well_formed rt specs fs env fs' :
  Main.parse_env_vars rt specs fs = (Ok env, fs') →
  fs' = fs
  ∧ ∃ es, env = map Spec.triple es
     ∧ map (λ e, Spec.var_name e +:+ Spec.operator_token (Spec.var_op e)
                 +:+ Spec.var_value e) es = map lstrip specs
     ∧ Forall (λ e, str_isidentifier rt (Spec.var_name e) = true
                    ∧ contains (chr 61) (Spec.var_name e) = false) es
     ∧ ∀ exe c fs0,
         for_ env (write_env_var rt exe) (<[exe := File c]> fs0)
         = (Ok tt,
            <[exe := File (c +:+ concat (map Spec.assignment_line es))]> fs0).
Proof.
  revert env fs'. induction specs as [|spec specs IH]; intros env fs'.
  - intros [= <- <-]. split; [done|]. exists []. repeat split; try done.
    intros exe c fs0. apply (write_env_vars rt exe []).
  - cbn [Main.parse_env_vars]. unmonad.
    destruct (Main.parse_env_var rt spec fs) as [[[[n a] v]|e] fs1] eqn:E1; [|done].
    apply parse_env_var_ok in E1 as (-> & Hid & op & Et & Hs & Hn).
    destruct (Main.parse_env_vars rt specs fs) as [[es0|e] fs2] eqn:E2; [|done].
    destruct (IH es0 fs2 eq_refl) as (-> & es & -> & Hm & Hf & _).
    intros [= <- <-]. split; [done|].
    exists (Spec.Assign n op v :: es). rewrite Et.
    split; [done|]. split; [|split].
    + cbn [map]. rewrite Hm. f_equal. injection Et as ->. by rewrite Hs.
    + by constructor.
    + intros exe c fs0.
      apply (write_env_vars rt exe (Spec.Assign n op v :: es)).
Qed.

(** Two arguments, the first indented and with an equals sign in its
    value. *)
Lemma parsed_assignments_are_well_formed_witness :
  ∃ es, [("FOO", "=", "bar=1"); ("BAZ", "?=", "qux")] = map Spec.triple es
    ∧ map (λ e, Spec.var_name e +:+ Spec.operator_token (Spec.var_op e)
                 +:+ Spec.var_value e) es
      = map lstrip ["  FOO=bar=1"; "BAZ?=qux"].
Proof.
  assert (Main.parse_env_vars Demo.python39 ["  FOO=bar=1"; "BAZ?=qux"] ∅
          = (Ok [("FOO", "=", "bar=1"); ("BAZ", "?=", "qux")], ∅)) as H
    by (vm_compute; reflexivity).
  destruct (parsed_assignments_are_well_formed _ _ _ _ _ H)
    as (_ & es & H1 & H2 & _).
  by exists es.
Defined.

(** X12.  An argument without an equals sign makes the parser fail with
    the error of the two-name unpacking, [not enough values to unpack]:
    the handler that would explain the expected form waits for an index
    error, which the unpacking does not raise. *)
Theorem assignment_without_equals_sign rt spec fs :
  contains (chr 61) spec = false →
  Main.parse_env_var rt spec fs
  = (Raise (Exn ValueError "not enough values to unpack (expected 2, got 1)"),
     fs).
Proof.
  intros H. unfold Main.parse_env_var, unpack2. unmonad.
  rewrite split1_whole; [done|].
  clear -H. induction spec as [|c s IH]; [done|]. simpl in *.
  apply orb_false_iff in H as [Hc Hs]. destruct (isspace c); [by apply IH|].
  simpl. by rewrite Hc, Hs.
Qed.

(** A bare name. *)
Lemma assignment_without_equals_sign_witness :
  Main.parse_env_var Demo.python39 "FOO" ∅
  = (Raise (Exn ValueError "not enough values to unpack (expected 2, got 1)"),
     ∅).
Proof.
  refine (assignment_without_equals_sign Demo.python39 "FOO" ∅ _).
  reflexivity.
Defined.

(** X13.  Parsing undoes printing: for an assignment whose name is an
    identifier (so it is not empty, does not start with white space, holds
    no equals sign and does not end with a question mark), the text made
    of its name, its operator token and its value parses back to exactly
    this assignment, whatever the value is. *)
Theorem assignment_round_trip rt e fs :
  (∀ c r, Spec.var_name e = String c r → isspace c = false) →
  Spec.var_name e ≠ EmptyString →
  contains (chr 61) (Spec.var_name e) = false →
  Main.ends_with (chr 63) (Spec.var_name e) = false →
  str_isidentifier rt (Spec.var_name e) = true →
  Main.parse_env_var rt
    (Spec.var_name e +:+ Spec.operator_token (Spec.var_op e) +:+ Spec.var_value e)
    fs
  = (Ok (Spec.triple e), fs).
Proof.
  destruct e as [n op v]. cbn [Spec.var_name Spec.var_op Spec.var_value].
  intros Hsp Hne Heq Hq Hid. unfold Main.parse_env_var, unpack2, Spec.triple.
  cbn [Spec.var_name Spec.var_op Spec.var_value]. unmonad.
  rewrite lstrip_nonspace.
  2:{ intros c r E. destruct n as [|c' n']; [done|]. rewrite app_cons in E.
      injection E as <- _. by apply (Hsp c' n'). }
  destruct op; cbn [Spec.operator_token].
  - change ("=" +:+ v) with (str1 (chr 61) +:+ v). rewrite split1_app by done.
    rewrite Hq, Hid. done.
  - change (n +:+ "?=" +:+ v) with (n +:+ str1 (chr 63) +:+ str1 (chr 61) +:+ v).
    rewrite <- (app_assoc n). rewrite split1_app.
    2:{ rewrite contains_app, Heq. done. }
    rewrite ends_with_app, drop_last_app, Hid. done.
Qed.

(** The assignment [BAZ?=qux]. *)
Lemma assignment_round_trip_witness :
  Main.parse_env_var Demo.python39 "BAZ?=qux" ∅
  = (Ok ("BAZ", "?=", "qux"), ∅).
Proof.
  refine (assignment_round_trip Demo.python39
            (Spec.Assign "BAZ" Spec.SetIfUnset "qux") ∅ _ _ _ _ _).
  - intros c r [= <- _]. reflexivity.
  - discriminate.
  - reflexivity.
  - reflexivity.
  - reflexivity.
Defined.

(** ** A malformed assignment in the script *)

Lemma write_env_vars_stop rt p es n op v rest c (fs : gmap string node) :
  op ≠ "=" → op ≠ "?=" →
  for_ (map Spec.triple es ++ (n, op, v) :: rest) (write_env_var rt p)
    (<[p := File c]> fs)
  = (Raise (Exn AssertionError ("Bad assignment value " +:+ py_repr rt op)),
     <[p := File (c +:+ concat (map Spec.assignment_line es))]> fs).
Proof.
  intros H1 H2. revert c. induction es as [|e es IH]; intros c.
  - cbn [map app for_ concat]. unmonad. unfold write_env_var.
    rewrite !bool_decide_eq_false_2 by done. by rewrite app_nil_r.
  - cbn [map app for_ concat]. unmonad.
    rewrite write_env_var_line, write_open, IH. by rewrite app_assoc.
Qed.

(** X14.  A builder that was handed a triple whose operator is neither
    [=] nor [?=] (the constructor does not check them) fails while the
    cross script is written, with the assertion error that shows the
    operator (assertions being enabled), and leaves a truncated script
    behind: the file holds the
    opening lines, the exports, the sysroot lines and the lines of the
    assignments before the bad one, and neither a later assignment nor
    the delegation to the build interpreter. *)
Theorem bad_operator_leaves_partial_script rt self context name stdlib
    es n op v rest (fs : gmap string node) :
  fs !! cross_env_exe context ≠ Some Dir →
  FS.isdir fs (dirname (cross_env_exe context)) = true →
  extra_env_vars self = map Spec.triple es ++ (n, op, v) :: rest →
  op ≠ "=" → op ≠ "?=" →
  ∃ sys,
    write_cross_script rt self context name stdlib fs
    = (Raise (Exn AssertionError ("Bad assignment value " +:+ py_repr rt op)),
       <[cross_env_exe context :=
           File (Textwrap.dedent (cross_header self context name stdlib)
                 +:+ sys
                 +:+ concat (map Spec.assignment_line es))]> fs).
Proof.
  intros Ho Hd Hv H1 H2. unfold write_cross_script. unmonad.
  rewrite (open_w_ok _ _ Ho Hd). rewrite write_open.
  change (EmptyString +:+ Textwrap.dedent (cross_header self context name stdlib))
    with (Textwrap.dedent (cross_header self context name stdlib)).
  destruct (write_sysroot_appends rt self (cross_env_exe context)
              (Textwrap.dedent (cross_header self context name stdlib)) fs)
    as [sys ->].
  rewrite Hv, write_env_vars_stop by done.
  exists sys. by rewrite !app_assoc.
Qed.

(** The assignments [FOO=bar], [BAR:=1] and [BAZ?=qux]. *)
Lemma bad_operator_leaves_partial_script_witness :
  ∃ sys,
    write_cross_script Demo.python39 Demo.careless Demo.context
      "_sysconfigdata__linux_arm" "/usr/lib/python3.9" Demo.world
    = (Raise (Exn AssertionError "Bad assignment value ':='"),
       <["/env/cross/bin/python3" :=
           File (Textwrap.dedent
                   (cross_header Demo.careless Demo.context
                      "_sysconfigdata__linux_arm" "/usr/lib/python3.9")
                 +:+ sys +:+ "export FOO=bar" +:+ nl)]> Demo.world).
Proof.
  destruct (bad_operator_leaves_partial_script Demo.python39 Demo.careless
              Demo.context "_sysconfigdata__linux_arm" "/usr/lib/python3.9"
              [Spec.Assign "FOO" Spec.AlwaysSet "bar"] "BAR" ":=" "1"
              [("BAZ", "?=", "qux")] Demo.world
              ltac:(vm_compute; discriminate) ltac:(vm_compute; reflexivity)
              ltac:(vm_compute; reflexivity) ltac:(discriminate)
              ltac:(discriminate)) as [sys H].
  exists sys. exact H.
Defined.

(** ** A compiler without a sysroot *)

Lemma lstrip_blank s :
  Forall (λ c, isspace c = true) (list_ascii_of_string s) →
  lstrip s = EmptyString.
Proof.
  induction s as [|c s IH]; [done|]. simpl. intros H.
  inversion H as [|? ? Hc Hs]; subst. rewrite Hc. by apply IH.
Qed.

(** X15.  When the compiler answers the sysroot query with white space
    only (an empty line, as a compiler built without a sysroot does), the
    constructed builder records the empty string as sysroot, and the cross
    script then gets no library-path and no include-path line: the step
    that writes them does nothing, on every file system. *)
Theorem blank_sysroot_adds_nothing rt a fs b out :
  (init rt a fs).1 = Ok b →
  spawn rt fs [host_cc (host b); "-print-sysroot"] = Exited 0 out →
  Forall (λ c, isspace c = true) (list_ascii_of_string out) →
  host_sysroot b = Some EmptyString
  ∧ ∀ exe s, write_sysroot rt b exe s = (Ok tt, s).
Proof.
  intros Hi Hs Hb.
  assert (host_sysroot b = Some EmptyString) as E.
  { revert Hi. unfold init. unmonad.
    pose proof (find_host_python_state rt (arg_host_python a) fs) as H1.
    destruct (find_host_python rt (arg_host_python a) fs) as [[hi|e] fs1];
      simpl in H1; subst; [|done].
    destruct (find_compiler_info rt (host_cc hi) fs) as [[sr|e] fs1] eqn:Ec; [|done].
    intros Hb'.
    assert (hi = host b ∧ sr = host_sysroot b) as [-> ->].
    { destruct (truthy (arg_cross_prefix a)); by injection Hb' as <-. }
    revert Ec. unfold find_compiler_info. unmonad.
    destruct (run_compiler rt (host_cc (host b)) "--version" fs)
      as [[[ver|]|e] fs2] eqn:Ev; try done.
    pose proof (run_compiler_state rt (host_cc (host b)) "--version" fs) as H2.
    rewrite Ev in H2. simpl in H2. subst fs2.
    rewrite (run_compiler_success _ _ _ _ _ Hs).
    intros [= <- _]. unfold strip. by rewrite lstrip_blank. }
  split; [done|]. intros exe s. unfold write_sysroot. by rewrite E.
Qed.

(** The compiler of the build machine. *)
Lemma blank_sysroot_adds_nothing_witness :
  let rt := Demo.runtime "3.9" "3.9" "3.9" Demo.native_gcc in
  let b := Demo.built (init rt (Demo.args "/opt/host/bin/python3.9" None [])
                         (Demo.installed true)) in
  host_sysroot b = Some EmptyString
  ∧ write_sysroot rt b "/env/cross/bin/python3" Demo.world = (Ok tt, Demo.world).
Proof.
  intros rt b.
  destruct (blank_sysroot_adds_nothing rt
              (Demo.args "/opt/host/bin/python3.9" None [])
              (Demo.installed true) b nl
              ltac:(apply built_ok; vm_compute; reflexivity)
              ltac:(vm_compute; reflexivity)
              ltac:(repeat constructor)) as [H1 H2].
  split; [exact H1|apply H2].
Defined.

(** ** The activation script *)

(** X16.  When both publishing loops of the last step return, the step
    writes the activation script of the environment, [bin/activate], and
    its text is exactly two lines: the first sources the activation script
    of the cross environment, the second puts the environment's [bin]
    directory in front of [PATH].  Nothing else changes after the
    loops. *)
Theorem activation_script_text rt self context fs :
  let fs1 :=
    (publish rt (cross_bin_path context) (bin_path context) "cross-" fs).2 in
  let fs2 :=
    (publish rt (build_bin_path context) (bin_path context) "build-" fs1).2 in
  (publish rt (cross_bin_path context) (bin_path context) "cross-" fs).1
    = Ok tt →
  (publish rt (build_bin_path context) (bin_path context) "build-" fs1).1
    = Ok tt →
  fs2 !! join (bin_path context) "activate" ≠ Some Dir →
  FS.isdir fs2 (dirname (join (bin_path context) "activate")) = true →
  Spec.one_line (cross_activate context) →
  Spec.one_line (bin_path context) →
  post_setup rt self context fs
  = (Ok tt,
     <[join (bin_path context) "activate" :=
         File (". " +:+ cross_activate context +:+ nl
               +:+ "export PATH=" +:+ bin_path context +:+ ":$PATH" +:+ nl)]>
       fs2).
Proof.
  intros fs1 fs2 H1 H2 Ho Hd Hc Hb. unfold post_setup. unmonad.
  subst fs2 fs1.
  destruct (publish rt (cross_bin_path context) (bin_path context) "cross-" fs)
    as [r1 s1]. simpl in *. subst r1.
  destruct (publish rt (build_bin_path context) (bin_path context) "build-" s1)
    as [r2 s2]. simpl in *. subst r2.
  rewrite (open_w_ok _ _ Ho Hd), write_open.
  f_equal. f_equal. f_equal.
  set (bodies := [". " +:+ cross_activate context;
                  "export PATH=" +:+ bin_path context +:+ ":$PATH"]).
  assert (activate_text context
          = Textwrap.join_lines (map (String.append indent16) bodies ++ [indent16]))
    as ->.
  { unfold activate_text, bodies. simpl Textwrap.join_lines.
    rewrite !app_assoc. reflexivity. }
  rewrite dedent_indent16.
  - unfold bodies. simpl concat. rewrite !app_assoc. reflexivity.
  - done.
  - unfold bodies.
    repeat constructor;
      repeat first [assumption | reflexivity | apply one_line_app].
Qed.

(** The environment under [/env]. *)
Lemma activation_script_text_witness :
  let fs2 :=
    (publish Demo.python39 "/env/build/bin" "/env/bin" "build-"
       (publish Demo.python39 "/env/cross/bin" "/env/bin" "cross-"
          Demo.world).2).2 in
  post_setup Demo.python39 Demo.self Demo.context Demo.world
  = (Ok tt,
     <["/env/bin/activate" :=
         File (". /env/cross/bin/activate" +:+ nl
               +:+ "export PATH=/env/bin:$PATH" +:+ nl)]> fs2).
Proof.
  refine (activation_script_text Demo.python39 Demo.self Demo.context
            Demo.world _ _ _ _ _ _).
  - vm_compute; reflexivity.
  - vm_compute; reflexivity.
  - vm_compute; discriminate.
  - vm_compute; reflexivity.
  - reflexivity.
  - reflexivity.
Defined.

(** ** The binaries of the cross environment *)

Lemma remove_loop (keep : string → bool) d subs (fs : gmap string node) :
  ∃ fs1,
    for_ subs (λ sub,
      if negb (keep sub) then Utils.remove_path (join d sub) else ret tt) fs
    = (Ok tt, fs1)
    ∧ ∀ q, fs1 !! q =
           if existsb (λ sub, negb (keep sub) && FS.under (join d sub) q) subs
           then None else fs !! q.
Proof.
  revert fs. induction subs as [|sub subs IH]; intros fs.
  - exists fs. done.
  - cbn [for_ existsb]. unmonad. destruct (keep sub) eqn:E; cbn [negb andb orb].
    + destruct (IH fs) as (fs1 & -> & H). by exists fs1.
    + pose proof (remove_path_lookup (join d sub) fs) as Hr.
      destruct (Utils.remove_path (join d sub) fs) as [[[]|e] fs'] eqn:Er;
        [|by unfold Utils.remove_path in Er].
      destruct (IH fs') as (fs1 & -> & H). exists fs1. split; [done|].
      intros q. rewrite H. simpl in Hr. rewrite Hr.
      destruct (FS.under (join d sub) q); [|done].
      by destruct (existsb _ subs).
Qed.

(** X17.  Where the [bin] directory of the cross environment exists, the
    pass over its entries returns and removes exactly the entries whose
    name does not start with [activate], each with everything below it:
    every entry whose name starts with [activate] is left as it was, and
    so are the directory itself and everything outside it; afterwards a
    listing of the directory shows names starting with [activate]
    only. *)
Theorem binaries_removed_activation_kept context (fs : gmap string node) :
  cross_bin_path context ≠ EmptyString →
  fs !! cross_bin_path context = Some Dir →
  ∃ fs1,
    remove_binaries context fs = (Ok tt, fs1)
    ∧ (∀ q, FS.under (cross_bin_path context) q = false → fs1 !! q = fs !! q)
    ∧ fs1 !! cross_bin_path context = Some Dir
    ∧ (∀ n q, FS.is_name n → startswith n "activate" = true →
              FS.under (join (cross_bin_path context) n) q = true →
              fs1 !! q = fs !! q)
    ∧ (∀ n q, FS.is_name n → startswith n "activate" = false →
              is_Some (fs !! join (cross_bin_path context) n) →
              FS.under (join (cross_bin_path context) n) q = true →
              fs1 !! q = None)
    ∧ ∀ exes, FS.listdir (cross_bin_path context) fs1 = (Ok exes, fs1) →
              Forall (λ exe, startswith exe "activate" = true) exes.
Proof.
  set (bin := cross_bin_path context). intros Hb Hdir.
  pose proof (stat_dir fs bin Hb Hdir) as Hst.
  destruct (listdir_dir bin fs Hst) as [subs Hl].
  destruct (remove_loop (λ exe, startswith exe "activate") bin subs fs)
    as (fs1 & Hloop & Hlook).
  pose proof (listdir_names _ _ _ Hl) as Hnames. rewrite Forall_forall in Hnames.
  assert (∀ q, (∀ sub, sub ∈ subs → startswith sub "activate" = false →
                       FS.under (join bin sub) q = false) →
               fs1 !! q = fs !! q) as Hkeep.
  { intros q Hq. rewrite Hlook.
    destruct (existsb _ subs) eqn:E; [|done].
    apply existsb_exists in E as (sub & Hin & Hs).
    apply andb_true_iff in Hs as [Hn Hu]. apply negb_true_iff in Hn.
    rewrite Hq in Hu; [done|by apply list_elem_of_In|done]. }
  assert (∀ n q, n ∈ subs → startswith n "activate" = false →
                 FS.under (join bin n) q = true → fs1 !! q = None) as Hgone.
  { intros n q Hin Hn Hu. rewrite Hlook.
    replace (existsb _ subs) with true; [done|]. symmetry.
    apply existsb_exists. exists n. split; [by apply list_elem_of_In|].
    by rewrite Hn, Hu. }
  exists fs1. split.
  { unfold remove_binaries. unmonad. fold bin. by rewrite Hl. }
  split.
  { intros q Hq. apply Hkeep. intros sub Hin _. apply not_true_is_false.
    intros Hu. rewrite (under_root bin sub q) in Hq; [done|done| |done].
    by apply Hnames. }
  assert (fs1 !! bin = Some Dir) as Hdir1.
  { rewrite <- Hdir. apply Hkeep. intros sub Hin _.
    apply root_not_under; [done|by apply Hnames]. }
  split; [done|]. split.
  { intros n q Hn Ha Hu. apply Hkeep. intros sub Hin Hs.
    apply not_true_is_false. intros Hu'.
    assert (sub = n) as ->.
    { apply (under_disjoint bin sub n q); [done|by apply Hnames|done|done|done]. }
    congruence. }
  split.
  { intros n q Hn Ha [x Hx] Hu. apply (Hgone n q); [|done|done].
    eapply listdir_entry; eauto. }
  intros exes Hl1. apply Forall_forall. intros n Hin.
  apply (listdir_elem bin fs1 exes n Hb Hl1) in Hin as [Hname [x Hx]].
  destruct (startswith n "activate") eqn:Ea; [done|]. exfalso.
  assert (n ∈ subs) as Hin.
  { apply (listdir_elem bin fs subs n Hb Hl). split; [done|].
    rewrite Hlook in Hx. destruct (existsb _ subs); [done|]. by eexists. }
  rewrite (Hgone n (join bin n) Hin Ea (under_refl _)) in Hx. done.
Qed.

(** The cross environment as the environment primitive leaves it: an
    interpreter and an activation script. *)
Lemma binaries_removed_activation_kept_witness :
  ∃ fs1,
    remove_binaries Demo.context Demo.fresh_cross = (Ok tt, fs1)
    ∧ fs1 !! "/env/cross/bin/activate" = Some (File "# activate")
    ∧ fs1 !! "/env/cross/bin/python3" = None.
Proof.
  destruct (binaries_removed_activation_kept Demo.context Demo.fresh_cross
              ltac:(discriminate) ltac:(vm_compute; reflexivity))
    as (fs1 & Hrun & _ & _ & Hkeep & Hgone & _).
  exists fs1. split; [exact Hrun|]. split.
  - rewrite (Hkeep "activate" "/env/cross/bin/activate").
    + vm_compute; reflexivity.
    + split; [discriminate|reflexivity].
    + reflexivity.
    + vm_compute; reflexivity.
  - apply (Hgone "python3" "/env/cross/bin/python3").
    + split; [discriminate|reflexivity].
    + reflexivity.
    + vm_compute. eexists. reflexivity.
    + vm_compute; reflexivity.
Defined.

(** ** A root that is not a directory *)

(** X18.  When the environment root is not a directory, the clearing pass
    changes nothing: it returns at once if the root does not exist or no
    clear flag is set, and if the root exists (a regular file, say) and a
    flag is set it fails with the not-a-directory error of the listing,
    and the directory-preparation step fails with it before the
    environment primitive is called. *)
Theorem root_must_be_a_directory rt self env fs :
  FS.isdir fs env = false →
  clear_shared self env fs
  = (if FS.exists_ fs env && (clear_cross self || clear_build self)
     then Raise (FS.enotdir env) else Ok tt, fs)
  ∧ (FS.exists_ fs env && (clear_cross self || clear_build self) = true →
     ensure_directories rt self env fs = (Raise (FS.enotdir env), fs)).
Proof.
  intros Hd.
  assert (clear_shared self env fs
          = (if FS.exists_ fs env && (clear_cross self || clear_build self)
             then Raise (FS.enotdir env) else Ok tt, fs)) as E.
  { unfold clear_shared. unmonad.
    destruct (FS.exists_ fs env) eqn:Hex; [|done].
    destruct (clear_cross self || clear_build self); [|done]. simpl.
    unfold FS.listdir. unfold FS.isdir in Hd. unfold FS.exists_ in Hex.
    destruct (FS.stat fs env) as [[c| |t]|]; done. }
  split; [done|]. intros H. unfold ensure_directories. unmonad.
  by rewrite E, H.
Qed.

(** A regular file given as environment directory to a builder that
    clears the build area. *)
Lemma root_must_be_a_directory_witness :
  ensure_directories Demo.python39 Demo.self "/env/notes.txt" Demo.world
  = (Raise (FS.enotdir "/env/notes.txt"), Demo.world).
Proof.
  refine (proj2 (root_must_be_a_directory Demo.python39 Demo.self
                   "/env/notes.txt" Demo.world _) _).
  - vm_compute; reflexivity.
  - vm_compute; reflexivity.
Defined.

(** ** Clear values the constructor does not know *)

(** X19.  A [clear] argument that is a string other than [default],
    [cross], [build] and [both] (such as [cross-only]) is accepted
    silently and selects nothing: the constructed builder has both clear
    flags unset, and its clearing pass returns without touching any root,
    existing or not. *)
Theorem unknown_clear_value_clears_nothing rt a fs b s :
  (init rt a fs).1 = Ok b →
  arg_clear a = Some s →
  s ∉ ["default"; "cross"; "build"; "both"] →
  clear_build b = false ∧ clear_cross b = false
  ∧ ∀ env st, clear_shared b env st = (Ok tt, st).
Proof.
  intros Hi Hc Hs.
  assert (clear_build b = false ∧ clear_cross b = false) as [E1 E2].
  { revert Hi. unfold init. unmonad.
    destruct (find_host_python rt (arg_host_python a) fs) as [[hi|?] s1]; [|done].
    destruct (find_compiler_info rt (host_cc hi) s1) as [[sr|?] s2]; [|done].
    rewrite Hc. unfold py_in.
    assert (s ∉ ["default"; "build"; "both"]) as H1.
    { intros H. apply Hs. apply list_elem_of_In. apply list_elem_of_In in H.
      simpl in *. tauto. }
    assert (s ∉ ["cross"; "both"]) as H2.
    { intros H. apply Hs. apply list_elem_of_In. apply list_elem_of_In in H.
      simpl in *. tauto. }
    assert (s ∉ ["default"; "cross"; "both"]) as H3.
    { intros H. apply Hs. apply list_elem_of_In. apply list_elem_of_In in H.
      simpl in *. tauto. }
    destruct (truthy (arg_cross_prefix a)); intros [= <-]; simpl;
      by rewrite !bool_decide_eq_false_2. }
  repeat split; try done. intros env st. unfold clear_shared. unmonad.
  rewrite E1, E2. by rewrite andb_false_r.
Qed.

(** The value [cross-only]. *)
Lemma unknown_clear_value_clears_nothing_witness :
  let b := Demo.built (init Demo.python39
                         (Demo.args "/opt/host/bin/python3.9" (Some "cross-only") [])
                         (Demo.installed true)) in
  clear_build b = false ∧ clear_cross b = false
  ∧ clear_shared b "/env" Demo.world = (Ok tt, Demo.world).
Proof.
  intros b.
  destruct (unknown_clear_value_clears_nothing Demo.python39
              (Demo.args "/opt/host/bin/python3.9" (Some "cross-only") [])
              (Demo.installed true) b "cross-only"
              ltac:(apply built_ok; vm_compute; reflexivity) ltac:(reflexivity)
              ltac:(intros H; apply list_elem_of_In in H; simpl in H;
                    repeat (destruct H as [H|H]; [discriminate H|]); exact H))
    as (H1 & H2 & H3).
  split; [exact H1|]. split; [exact H2|apply H3].
Defined.

(** ** The descriptor *)

(** X20.  For a host platform of the form [sysname-machine], and when the
    configuration parser renders the section, the descriptor step writes
    [crossenv.cfg] in the environment root and changes nothing else: the
    file holds the [uname] section with the keys [sysname], [nodename],
    [release], [version] and [machine] in this order, where the system
    name is the title-cased part before the hyphen, the machine is the
    part behind it, the node name is [build] and release and version are
    empty; the context records the path of the file. *)
Theorem descriptor_written rt self context fs sysname machine text :
  host_platform (host self) = sysname +:+ "-" +:+ machine →
  contains (chr 45) sysname = false →
  contains (chr 45) machine = false →
  configparser_write rt "uname"
    [("sysname", str_title rt sysname); ("nodename", "build");
     ("release", EmptyString); ("version", EmptyString); ("machine", machine)]
    = Ok text →
  create_configuration rt self context fs
  = (Ok (with_crossenv_cfg context (join (env_dir context) "crossenv.cfg")),
     <[join (env_dir context) "crossenv.cfg" := File text]> fs).
Proof.
  intros Hp Hs Hm Hw. unfold create_configuration, unpack2. rewrite Hp.
  change ("-" +:+ machine) with (str1 (chr 45) +:+ machine).
  rewrite split_app by done. rewrite split_whole by done.
  unmonad. rewrite Hw. reflexivity.
Qed.

(** The platform [linux-arm]. *)
Lemma descriptor_written_witness :
  create_configuration Demo.python39 Demo.self Demo.context Demo.world
  = (Ok Demo.context,
     <["/env/crossenv.cfg" :=
         File ("[uname]" +:+ nl +:+ "sysname = linux" +:+ nl
               +:+ "nodename = build" +:+ nl +:+ "release = " +:+ nl
               +:+ "version = " +:+ nl +:+ "machine = arm" +:+ nl +:+ nl)]>
       Demo.world).
Proof.
  refine (descriptor_written Demo.python39 Demo.self Demo.context Demo.world
            "linux" "arm" _ _ _ _ _).
  - vm_compute; reflexivity.
  - reflexivity.
  - reflexivity.
  - vm_compute; reflexivity.
Defined.

(** ** The search path of the build interpreter *)

Lemma rstrip_idem s : rstrip (rstrip s) = rstrip s.
Proof.
  induction s as [|a s IH]; [done|]. cbn [rstrip].
  destruct (rstrip s) as [|b r] eqn:E.
  - destruct (isspace a) eqn:Ea; [done|]. simpl. by rewrite Ea.
  - change (rstrip (String a (String b r)))
      with (match rstrip (String b r) with
            | EmptyString => if isspace a then EmptyString else str1 a
            | r' => String a r'
            end).
    by rewrite IH.
Qed.

Lemma rstrip_head c s r :
  rstrip s = String c r → ∃ r', s = String c r'.
Proof.
  destruct s as [|a s]; [done|]. cbn [rstrip].
  destruct (rstrip s); [destruct (isspace a)|]; intros [= -> _]; by eexists.
Qed.

Lemma lstrip_head c r s : lstrip s = String c r → isspace c = false.
Proof.
  induction s as [|a s IH]; [done|]. simpl.
  destruct (isspace a) eqn:E; [done|]. by intros [= <- _].
Qed.

Lemma strip_idem s : strip (strip s) = strip s.
Proof.
  unfold strip. destruct (rstrip (lstrip s)) as [|c r] eqn:E; [done|].
  destruct (rstrip_head _ _ _ E) as [r' Hr'].
  pose proof (lstrip_head _ _ _ Hr') as Hc.
  cbn [lstrip]. rewrite Hc. rewrite <- E. apply rstrip_idem.
Qed.

(** X21.  When the build step returns, the file system is exactly as the
    environment primitive left it after creating [build] under the root
    with the builder's flags (site packages, clearing of the build area,
    pip); the build interpreter recorded in the context is the
    interpreter's name inside [build/bin]; and the recorded search path
    holds no empty entry and no entry with white space at either end. *)
Theorem build_search_path_is_clean rt self context fs c :
  (make_build_python rt self context fs).1 = Ok c →
  venv_create rt
    (VenvFlags (build_system_site_packages self) (clear_build self) false false
       (with_build_pip self))
    (join (env_dir context) "build") fs
  = (Ok tt, (make_build_python rt self context fs).2)
  ∧ build_env_exe c
    = join (join (join (env_dir context) "build") "bin") (python_exe context)
  ∧ Forall (λ entry, entry ≠ EmptyString ∧ strip entry = entry)
      (build_sys_path c).
Proof.
  unfold make_build_python, check_output. unmonad.
  destruct (venv_create rt _ _ fs) as [[[]|e] fs1]; [|done].
  destruct (spawn rt fs1 _) as [code out|e]; [|done].
  destruct (code =? 0); [|done]. simpl. intros [= <-].
  split; [done|]. split; [done|]. cbn [build_sys_path with_build].
  apply Forall_forall. intros entry Hin.
  apply list_elem_of_filter in Hin as [Hne Hin].
  apply list_elem_of_fmap in Hin as (line & -> & _).
  split; [done|]. apply strip_idem.
Qed.

(** An interpreter that prints a blank line and a padded path. *)
Lemma build_search_path_is_clean_witness :
  let rt := Demo.runtime "3.9" "3.9" "3.9" Demo.interpreter in
  let c := match (make_build_python rt Demo.self Demo.context Demo.world).1 with
           | Ok c => c
           | Raise _ => Demo.context
           end in
  build_sys_path c
    = ["/usr/lib/python3.9"; "/env/build/lib/python3.9/site-packages"]
  ∧ Forall (λ entry, entry ≠ EmptyString ∧ strip entry = entry)
      (build_sys_path c).
Proof.
  intros rt c. split; [vm_compute; reflexivity|].
  refine (proj2 (proj2
    (build_search_path_is_clean rt Demo.self Demo.context Demo.world c _))).
  vm_compute; reflexivity.
Defined.

(** ** Publishing the executables *)

Lemma publish_loop_skips rt from_bin to_bin prefix exes fs :
  Forall (λ exe, FS.isfile fs (join from_bin exe)
                 && os_access_x rt fs (join from_bin exe) = false) exes →
  for_ exes (λ exe,
    let target := join from_bin exe in
    let* usable := gets (λ fs, FS.isfile fs target && os_access_x rt fs target) in
    if negb usable then ret tt
    else utils_symlink rt target (join to_bin (prefix +:+ exe))) fs
  = (Ok tt, fs).
Proof.
  induction 1 as [|exe exes He _ IH]; [done|].
  cbn [for_]. unmonad. cbv zeta. by rewrite He.
Qed.

Lemma listdir_fst d fs subs :
  (FS.listdir d fs).1 = Ok subs → FS.listdir d fs = (Ok subs, fs).
Proof.
  unfold FS.listdir. destruct (FS.stat fs d) as [[]|]; simpl; by intros [= <-].
Qed.

(** X22.  A publishing loop links nothing that is not an executable
    regular file: over a directory in which every entry is either not a
    regular file (a subdirectory, a dangling link) or not executable, the
    loop returns and the file system is as it was. *)
Theorem only_executable_files_are_published rt from_bin to_bin prefix
    (fs : gmap string node) :
  from_bin ≠ EmptyString →
  fs !! from_bin = Some Dir →
  (∀ exe x, FS.is_name exe → fs !! join from_bin exe = Some x →
            FS.isfile fs (join from_bin exe) = false
            ∨ os_access_x rt fs (join from_bin exe) = false) →
  publish rt from_bin to_bin prefix fs = (Ok tt, fs).
Proof.
  intros Hb Hdir Hskip.
  destruct (listdir_dir from_bin fs (stat_dir fs from_bin Hb Hdir)) as [exes Hl].
  unfold publish. unmonad. rewrite Hl.
  apply publish_loop_skips. apply Forall_forall. intros exe Hin.
  apply (listdir_elem from_bin fs exes exe Hb Hl) in Hin as [Hn [x Hx]].
  destruct (Hskip exe x Hn Hx) as [->| ->]; [done|apply andb_false_r].
Qed.

(** A directory that holds one subdirectory. *)
Lemma only_executable_files_are_published_witness :
  publish Demo.python39 "/opt/host/lib" "/env/bin" "cross-" Demo.world
  = (Ok tt, Demo.world).
Proof.
  refine (only_executable_files_are_published Demo.python39 "/opt/host/lib"
            "/env/bin" "cross-" Demo.world _ _ _).
  - discriminate.
  - vm_compute; reflexivity.
  - intros exe x Hn Hx. left.
    assert (exe ∈ ["python3.9"]) as Hin.
    { apply (listdir_entry "/opt/host/lib" Demo.world ["python3.9"] exe x);
        [discriminate|apply listdir_fst; vm_compute; reflexivity
        |exact Hn|exact Hx]. }
    apply list_elem_of_In in Hin. destruct Hin as [<-|[]].
    vm_compute; reflexivity.
Defined.
